(** * VisualizadorDICOM: the DicomManager wrapper, embedded and verified

    The development follows [DicomManager.h] and [DicomManager.cpp]
    (version 1.2.0).  The two static methods of the class,
    [loadDicomImage] and [extractMetadata], are thin clients of two
    external libraries:

    - DCMTK ([DicomImage], [DcmFileFormat], [DcmDataset]), which is kept
      abstract: a record of the answers its entry points give;
    - Qt ([QString], [QImage]), whose value types are modelled
      concretely, since the code computes with them ([fromLatin1],
      [length], [mid], [left], [+], [arg], the [QImage] constructor
      over a raw buffer and [copy]).

    Effects are explicit.  Both methods run in a small monad over the
    state of the process (the files it can read, the codecs registered
    in [main], and the history of library calls made so far) whose
    outcome is either a returned value or undefined behaviour (a read
    past the end of a buffer).

    The handlers of [main.cpp] (open, toggle, back, zoom, the
    shortcuts) and the codec registration of [main] are embedded over
    the same monad, with the window as an explicit state. *)

From Stdlib Require Import ZArith NArith List Bool Lia.
From Stdlib Require Import Strings.String Strings.Ascii Strings.Byte.
From Stdlib Require Import Numbers.DecimalString.
Import ListNotations.

Local Open Scope Z_scope.

(** ** C and C++ scalars *)

(** [std::string] and [OFString]: a sequence of bytes that may hold
    NUL bytes. *)
Definition std_string := list byte.
Definition OFString := list byte.

(** [s.c_str()] read as a C string: the bytes before the first NUL. *)
Fixpoint c_str (s : list byte) : list byte :=
  match s with
  | [] => []
  | b :: rest => if Byte.eqb b x00 then [] else b :: c_str rest
  end.

(** Conversion of an [unsigned long] to [int] (two's complement,
    32 bits), as in [const int width = image->getWidth();]. *)
Definition to_int (z : Z) : Z := (z + 2 ^ 31) mod 2 ^ 32 - 2 ^ 31.

(** ** QString *)

Module QString.

(** A [QChar] is one UTF-16 code unit. *)
Definition QChar := N.

(** A [QString] is its sequence of code units.  A default-constructed
    (null) string and an empty one are both the empty sequence; the
    code never tells them apart. *)
Definition t := list QChar.

Definition null : t := [].

(** The [QString] built from an ASCII string literal of the source. *)
Definition lit (s : string) : t := map N_of_ascii (list_ascii_of_string s).

(** [QString::fromLatin1] on a C string: every byte becomes the code
    unit of the same value. *)
Definition fromLatin1 (cstr : list byte) : t := map Byte.to_N cstr.

Definition length (s : t) : nat := List.length s.

(** [mid(position, n)] and [left(n)] for the non-negative arguments
    the code passes: both clamp at the end of the string. *)
Definition mid (s : t) (position n : nat) : t := firstn n (skipn position s).
Definition left (s : t) (n : nat) : t := firstn n s.

(** [operator+]. *)
Definition append (a b : t) : t := a ++ b.

(** [QString::number(long)]: decimal digits in the C locale, with a
    leading minus sign for negative values. *)
Definition number (a : Z) : t := lit (NilEmpty.string_of_int (Z.to_int a)).

(** *** Place markers of [arg]

    [arg] looks for markers [%n] and [%Ln], where n is one or two
    decimal digits, and replaces every marker that carries the lowest
    number found. *)

Definition percent : QChar := 37%N.
Definition capital_L : QChar := 76%N.

(** [QChar::digitValue] on the ASCII digits; the strings this program
    formats hold no other decimal digit. *)
Definition digitValue (c : QChar) : option nat :=
  if ((48 <=? c) && (c <=? 57))%N then Some (N.to_nat (c - 48)) else None.

Inductive token :=
| Text (c : QChar)
| Marker (escape : nat) (locale : bool) (raw : t).

(** The scan of [findArgEscapes], as a list of tokens.  A [%] that
    does not start a marker is text, and the scan goes on with the
    character that was not a digit. *)
Fixpoint tokens (s : t) : list token :=
  match s with
  | [] => []
  | c :: rest =>
      if N.eqb c percent then
        match rest with
        | [] => [Text c]
        | d :: rest1 =>
            if N.eqb d capital_L then
              match rest1 with
              | [] => [Text c; Text d]
              | d' :: rest2 =>
                  match digitValue d' with
                  | None => Text c :: Text d :: tokens rest1
                  | Some v =>
                      match rest2 with
                      | e :: rest3 =>
                          match digitValue e with
                          | Some v' =>
                              Marker (10 * v + v') true [c; d; d'; e]
                                :: tokens rest3
                          | None =>
                              Marker v true [c; d; d'] :: tokens rest2
                          end
                      | [] => [Marker v true [c; d; d']]
                      end
                  end
              end
            else
              match digitValue d with
              | None => Text c :: tokens rest
              | Some v =>
                  match rest1 with
                  | e :: rest2 =>
                      match digitValue e with
                      | Some v' =>
                          Marker (10 * v + v') false [c; d; e] :: tokens rest2
                      | None => Marker v false [c; d] :: tokens rest1
                      end
                  | [] => [Marker v false [c; d]]
                  end
              end
        end
      else Text c :: tokens rest
  end.

(** The lowest marker number of a scan ([min_escape]). *)
Fixpoint min_escape (ts : list token) : option nat :=
  match ts with
  | [] => None
  | Text _ :: ts' => min_escape ts'
  | Marker n _ _ :: ts' =>
      match min_escape ts' with
      | None => Some n
      | Some m => Some (Nat.min n m)
      end
  end.

(** [replaceArgEscapes] with field width 0: a marker of the lowest
    number becomes the argument ([la] for the [L] form), every other
    token is copied. *)
Fixpoint replace (lowest : nat) (a la : t) (ts : list token) : t :=
  match ts with
  | [] => []
  | Text c :: ts' => c :: replace lowest a la ts'
  | Marker n locale raw :: ts' =>
      (if Nat.eqb n lowest then (if locale then la else a) else raw)
        ++ replace lowest a la ts'
  end.

(** [arg] with the texts of the argument already built: [a] for the
    plain markers, [la] for the [L] ones.  A string without place
    marker is returned as it is (Qt prints a warning). *)
Definition arg_text (s a la : t) : t :=
  let ts := tokens s in
  match min_escape ts with
  | None => s
  | Some lowest => replace lowest a la ts
  end.

(** [arg(long)], field width 0 and base 10: plain markers take the
    C-locale digits, [L] markers the text of the default locale,
    [localized a]. *)
Definition arg (localized : Z -> t) (s : t) (a : Z) : t :=
  arg_text s (number a) (localized a).

End QString.

(** ** Outcomes, and the memory a QImage points at *)

(** What running a piece of the program yields: a value, or undefined
    behaviour (the program read memory it does not own). *)
Inductive Outcome (A : Type) : Type :=
| Returned (a : A)
| Undefined.
Arguments Returned {A} a.
Arguments Undefined {A}.

(** A block of memory: a byte that was never written holds nothing. *)
Definition memory := list (option byte).

(** [memcpy] source side: [n] bytes from offset [off]. *)
Definition read (mem : memory) (off n : nat) : Outcome memory :=
  if (off + n <=? List.length mem)%nat
  then Returned (firstn n (skipn off mem))
  else Undefined.

(** ** QImage *)

Module QImage.

(** The formats this development names; the code uses
    [Format_Grayscale8] alone. *)
Inductive Format :=
| Format_Invalid
| Format_Mono
| Format_Indexed8
| Format_RGB32
| Format_Grayscale8.

(** Bits per pixel ([qt_depthForFormat]). *)
Definition depth (f : Format) : Z :=
  match f with
  | Format_Invalid => 0
  | Format_Mono => 1
  | Format_Indexed8 => 8
  | Format_RGB32 => 32
  | Format_Grayscale8 => 8
  end.

(** The shared data of a non-null image ([QImageData]): [nbytes] is
    [bytes_per_line * height], and scan line [y] starts at offset
    [y * bytes_per_line] of [bits]. *)
Record data := mk_data {
  width : Z;
  height : Z;
  format : Format;
  bytes_per_line : Z;
  bits : memory
}.

Definition nbytes (d : data) : Z := bytes_per_line d * height d.

(** A [QImage] is null ([isNull()]) or points at its data. *)
Definition t := option data.

Definition null : t := None.

Definition isNull (img : t) : bool :=
  match img with None => true | Some _ => false end.

(** The byte of the pixel in column [x] of scan line [y], when that
    byte was written. *)
Definition byte_at (d : data) (x y : Z) : option byte :=
  match nth_error (bits d) (Z.to_nat (y * bytes_per_line d + x)) with
  | Some (Some b) => Some b
  | _ => None
  end.

(** Scan lines of an image that Qt allocates are aligned on 32 bits. *)
Definition aligned_bytes_per_line (w dep : Z) : Z :=
  Z.shiftl (Z.shiftr (w * dep + 31) 5) 2.

Section Runtime.

(** Qt refuses sizes whose byte count it cannot represent, and an
    allocation may fail; both are answers of the platform. *)
Variable params_valid : Z -> Z -> Z -> bool.
Variable malloc_ok : Z -> bool.

(** [QImage(uchar *data, int width, int height, qsizetype
    bytesPerLine, Format)], for a non-null [data]: the image points
    at the caller's buffer. *)
Definition from_data (buffer : list byte) (w h bpl : Z) (f : Format) : t :=
  if (w <=? 0) || (h <=? 0) then null
  else match f with
       | Format_Invalid => null
       | _ =>
           if negb (params_valid w h (depth f)) then null
           else if 0 <? bpl then
                  if bpl <? (w * depth f + 7) / 8 then null
                  else Some (mk_data w h f bpl (map Some buffer))
                else Some (mk_data w h f (aligned_bytes_per_line w (depth f))
                             (map Some buffer))
       end.

(** [QImage(int width, int height, Format)]: fresh memory, not
    initialised. *)
Definition create (w h : Z) (f : Format) : t :=
  if (w <=? 0) || (h <=? 0) then null
  else match f with
       | Format_Invalid => null
       | _ =>
           if negb (params_valid w h (depth f)) then null
           else
             let bpl := aligned_bytes_per_line w (depth f) in
             if negb (malloc_ok (bpl * h)) then null
             else Some (mk_data w h f bpl
                          (repeat None (Z.to_nat (bpl * h))))
       end.

(** The loop of [copy()] over the scan lines: [n] bytes of each
    source line go to the start of the destination line, whose
    other [pad] bytes stay as they were allocated. *)
Fixpoint copy_scanlines (src : memory) (offset stride n pad rows : nat)
  : Outcome memory :=
  match rows with
  | O => Returned []
  | S rows' =>
      match read src offset n with
      | Undefined => Undefined
      | Returned line =>
          match copy_scanlines src (offset + stride) stride n pad rows' with
          | Undefined => Undefined
          | Returned rest => Returned (line ++ repeat None pad ++ rest)
          end
      end
  end.

(** [copy()] of the whole image: a new image of the same width,
    height and format; one [memcpy] when both have the same byte
    count, else one per scan line. *)
Definition copy (img : t) : Outcome t :=
  match img with
  | None => Returned null
  | Some d =>
      match create (width d) (height d) (format d) with
      | None => Returned null
      | Some image =>
          if nbytes image =? nbytes d then
            match read (bits d) 0 (Z.to_nat (nbytes d)) with
            | Undefined => Undefined
            | Returned m =>
                Returned (Some (mk_data (width image) (height image)
                                  (format image) (bytes_per_line image) m))
            end
          else
            let bpl := Z.min (bytes_per_line d) (bytes_per_line image) in
            match copy_scanlines (bits d) 0
                    (Z.to_nat (bytes_per_line d)) (Z.to_nat bpl)
                    (Z.to_nat (bytes_per_line image - bpl))
                    (Z.to_nat (height d)) with
            | Undefined => Undefined
            | Returned m =>
                Returned (Some (mk_data (width image) (height image)
                                  (format image) (bytes_per_line image) m))
            end
      end
  end.

End Runtime.

End QImage.

(** ** DCMTK, as the code sees it *)

(** [EI_Status]: the code compares with [EIS_Normal] alone; every other
    enumerator is a failure. *)
Inductive EI_Status :=
| EIS_Normal
| EIS_Failure (code : nat).

Definition EI_Status_eqb (a b : EI_Status) : bool :=
  match a, b with
  | EIS_Normal, EIS_Normal => true
  | EIS_Failure m, EIS_Failure n => Nat.eqb m n
  | _, _ => false
  end.

(** [OFCondition]: the code asks [good()] alone. *)
Inductive OFCondition :=
| EC_Normal
| EC_Error (code : nat).

Definition good (c : OFCondition) : bool :=
  match c with EC_Normal => true | EC_Error _ => false end.

(** [DcmTagKey]: group and element. *)
Definition DcmTagKey := (N * N)%type.

Definition DCM_StudyDate : DcmTagKey := (0x0008, 0x0020)%N.
Definition DCM_Modality : DcmTagKey := (0x0008, 0x0060)%N.
Definition DCM_InstitutionName : DcmTagKey := (0x0008, 0x0080)%N.
Definition DCM_PatientName : DcmTagKey := (0x0010, 0x0010)%N.
Definition DCM_PatientID : DcmTagKey := (0x0010, 0x0020)%N.
Definition DCM_Rows : DcmTagKey := (0x0028, 0x0010)%N.
Definition DCM_Columns : DcmTagKey := (0x0028, 0x0011)%N.

(** The decompression codecs that [main] registers at start-up. *)
Inductive Codec := DJDecoder | DJLSDecoder | DcmRLEDecoder.

(** The files the process can read, by file name. *)
Definition FileSystem := list byte -> option (list byte).

(** The library is a record of answers.  A [DicomImage] is the state of
    one image object: windowing and rendering change it, so these calls
    return the next state with their result.  The constructor and
    [loadFile] read the files and the codec registry. *)
Record Dcmtk := {
  DicomImage : Type;
  DicomImage_ctor : FileSystem -> list Codec -> list byte -> DicomImage;
  DicomImage_getStatus : DicomImage -> EI_Status;
  DicomImage_setWindow : DicomImage -> Z -> Z * DicomImage;
  DicomImage_setMinMaxWindow : DicomImage -> Z -> Z * DicomImage;
  DicomImage_getWidth : DicomImage -> Z;
  DicomImage_getHeight : DicomImage -> Z;
  DicomImage_getOutputData : DicomImage -> Z -> option (list byte) * DicomImage;
  DcmDataset : Type;
  DcmFileFormat_loadFile : FileSystem -> list byte -> OFCondition * DcmDataset;
  DcmItem_string : DcmDataset -> DcmTagKey -> OFCondition * OFString;
  DcmItem_long : DcmDataset -> DcmTagKey -> OFCondition * Z
}.

(** The answers of Qt that are not computed here. *)
Record QtRuntime := {
  toStdString : QString.t -> std_string;
  localized_number : Z -> QString.t;
  image_params_valid : Z -> Z -> Z -> bool;
  image_malloc_ok : Z -> bool
}.

(** ** The process and its monad *)

(** One entry per call into DCMTK, with the answer, and per line
    written to the debug stream. *)
Inductive Event :=
| Ev_new_DicomImage (filename : list byte)
| Ev_delete_DicomImage
| Ev_getStatus (answer : EI_Status)
| Ev_setWindow (window : Z) (answer : Z)
| Ev_setMinMaxWindow (idx : Z) (answer : Z)
| Ev_getWidth (answer : Z)
| Ev_getHeight (answer : Z)
| Ev_getOutputData (bits : Z) (has_data : bool)
| Ev_loadFile (filename : list byte) (answer : OFCondition)
| Ev_getDataset
| Ev_findAndGetOFString (tag : DcmTagKey) (answer : OFCondition)
| Ev_findAndGetLongInt (tag : DcmTagKey) (answer : OFCondition)
| Ev_qDebug (message : string) (path : QString.t).

Record Process := mk_process {
  files : FileSystem;
  codecs : list Codec;
  history : list Event
}.

Definition M (A : Type) : Type := Process -> Process * Outcome A.

Definition ret {A} (a : A) : M A := fun p => (p, Returned a).

Definition bind {A B} (m : M A) (f : A -> M B) : M B :=
  fun p =>
    match m p with
    | (p', Returned a) => f a p'
    | (p', Undefined) => (p', Undefined)
    end.

Declare Scope process_scope.
Delimit Scope process_scope with process.
Notation "x <- m ;; k" := (bind m (fun x => k))
  (at level 100, m at next level, right associativity) : process_scope.
Notation "m ;;; k" := (bind m (fun _ => k))
  (at level 100, right associativity) : process_scope.

(** Record a call at the end of the history. *)
Definition emit (e : Event) : M unit :=
  fun p => (mk_process (files p) (codecs p) (history p ++ [e]), Returned tt).

(** A library call: its entry in the history, then its answer. *)
Definition call {A} (e : Event) (answer : A) : M A :=
  bind (emit e) (fun _ => ret answer).

(** A computation that may run into undefined behaviour. *)
Definition lift {A} (o : Outcome A) : M A := fun p => (p, o).

(** A library call that reads the files and the codec registry. *)
Definition with_environment {A} (k : FileSystem -> list Codec -> M A) : M A :=
  fun p => k (files p) (codecs p) p.

(** The events a run adds to the history [h] it started from. *)
Definition added (h after : list Event) : list Event :=
  skipn (List.length h) after.

(** ** DicomManager *)

(** [struct DicomMetadata] of [DicomManager.h]. *)
Record DicomMetadata := mk_metadata {
  patientName : QString.t;
  patientID : QString.t;
  studyDate : QString.t;
  modality : QString.t;
  institution : QString.t;
  dimensions : QString.t;
  isValid : bool
}.

(** [DicomMetadata data;]: the strings are default-constructed and
    [isValid] takes its initialiser. *)
Definition DicomMetadata_default : DicomMetadata :=
  mk_metadata QString.null QString.null QString.null QString.null
    QString.null QString.null false.

Definition set_patientName (v : QString.t) (d : DicomMetadata) :=
  mk_metadata v (patientID d) (studyDate d) (modality d) (institution d)
    (dimensions d) (isValid d).
Definition set_patientID (v : QString.t) (d : DicomMetadata) :=
  mk_metadata (patientName d) v (studyDate d) (modality d) (institution d)
    (dimensions d) (isValid d).
Definition set_studyDate (v : QString.t) (d : DicomMetadata) :=
  mk_metadata (patientName d) (patientID d) v (modality d) (institution d)
    (dimensions d) (isValid d).
Definition set_modality (v : QString.t) (d : DicomMetadata) :=
  mk_metadata (patientName d) (patientID d) (studyDate d) v (institution d)
    (dimensions d) (isValid d).
Definition set_institution (v : QString.t) (d : DicomMetadata) :=
  mk_metadata (patientName d) (patientID d) (studyDate d) (modality d) v
    (dimensions d) (isValid d).
Definition set_dimensions (v : QString.t) (d : DicomMetadata) :=
  mk_metadata (patientName d) (patientID d) (studyDate d) (modality d)
    (institution d) v (isValid d).
Definition set_isValid (v : bool) (d : DicomMetadata) :=
  mk_metadata (patientName d) (patientID d) (studyDate d) (modality d)
    (institution d) (dimensions d) v.

Module DicomManager.

Local Open Scope process_scope.

Section Methods.

Variable tk : Dcmtk.
Variable qt : QtRuntime.

(** *** The calls into DCMTK, with their entry in the history *)

(** [new DicomImage(filename)]: a pointer to a fresh object; [new]
    never yields a null pointer. *)
Definition new_DicomImage (filename : list byte)
  : M (option (DicomImage tk)) :=
  with_environment (fun fs registry =>
    call (Ev_new_DicomImage filename)
      (Some (DicomImage_ctor tk fs registry filename))).

Definition delete_DicomImage (image : DicomImage tk) : M unit :=
  emit Ev_delete_DicomImage.

Definition getStatus (image : DicomImage tk) : M EI_Status :=
  let r := DicomImage_getStatus tk image in call (Ev_getStatus r) r.

Definition setWindow (image : DicomImage tk) (window : Z)
  : M (Z * DicomImage tk) :=
  let r := DicomImage_setWindow tk image window in
  call (Ev_setWindow window (fst r)) r.

(** [setMinMaxWindow()] has one parameter, [idx], of default 0. *)
Definition setMinMaxWindow (image : DicomImage tk) (idx : Z)
  : M (Z * DicomImage tk) :=
  let r := DicomImage_setMinMaxWindow tk image idx in
  call (Ev_setMinMaxWindow idx (fst r)) r.

Definition getWidth (image : DicomImage tk) : M Z :=
  let r := DicomImage_getWidth tk image in call (Ev_getWidth r) r.

Definition getHeight (image : DicomImage tk) : M Z :=
  let r := DicomImage_getHeight tk image in call (Ev_getHeight r) r.

(** [getOutputData(bits)]: the rendered frame, or a null pointer. *)
Definition getOutputData (image : DicomImage tk) (nbits : Z)
  : M (option (list byte) * DicomImage tk) :=
  let r := DicomImage_getOutputData tk image nbits in
  call (Ev_getOutputData nbits
          (match fst r with Some _ => true | None => false end)) r.

(** [fileformat.loadFile(filename)] on a fresh [DcmFileFormat]: the
    condition, and the data set the object then holds. *)
Definition loadFile (filename : list byte)
  : M (OFCondition * DcmDataset tk) :=
  with_environment (fun fs _ =>
    let r := DcmFileFormat_loadFile tk fs filename in
    call (Ev_loadFile filename (fst r)) r).

Definition getDataset (held : DcmDataset tk) : M (DcmDataset tk) :=
  call Ev_getDataset held.

(** [findAndGetOFString(tag, value)]: DCMTK sets [value] to the
    empty string when an error occurs. *)
Definition findAndGetOFString (dataset : DcmDataset tk) (tag : DcmTagKey)
  : M (OFCondition * OFString) :=
  let r := DcmItem_string tk dataset tag in
  call (Ev_findAndGetOFString tag (fst r))
    (if good (fst r) then r else (fst r, [])).

(** [findAndGetLongInt(tag, value)]: DCMTK sets [value] to zero
    when an error occurs. *)
Definition findAndGetLongInt (dataset : DcmDataset tk) (tag : DcmTagKey)
  : M (OFCondition * Z) :=
  let r := DcmItem_long tk dataset tag in
  call (Ev_findAndGetLongInt tag (fst r))
    (if good (fst r) then r else (fst r, 0)).

Definition qDebug (message : string) (path : QString.t) : M unit :=
  emit (Ev_qDebug message path).

(** *** loadDicomImage *)

Definition loadDicomImage (path : QString.t) : M QImage.t :=
  image <- new_DicomImage (c_str (toStdString qt path)) ;;
  match image with
  | None => ret QImage.null
  | Some image =>
      status <- getStatus image ;;
      if negb (EI_Status_eqb status EIS_Normal) then
        (delete_DicomImage image ;;;
         ret QImage.null)
      else
        preset <- setWindow image 0 ;;
        image <- (if fst preset =? 0
                  then (fallback <- setMinMaxWindow (snd preset) 0 ;;
                        ret (snd fallback))
                  else ret (snd preset)) ;;
        w <- getWidth image ;;
        let width := to_int w in
        h <- getHeight image ;;
        let height := to_int h in
        rendered <- getOutputData image 8 ;;
        let pixelData := fst rendered in
        let image := snd rendered in
        match pixelData with
        | Some buffer =>
            let result :=
              QImage.from_data (image_params_valid qt) buffer
                width height width QImage.Format_Grayscale8 in
            finalImage <- lift (QImage.copy (image_params_valid qt)
                                  (image_malloc_ok qt) result) ;;
            delete_DicomImage image ;;;
            ret finalImage
        | None =>
            delete_DicomImage image ;;;
            ret QImage.null
        end
  end.

(** *** extractMetadata *)

(** The lambda [getTag]; [tempVal] is captured by reference, so it
    comes back with the text. *)
Definition getTag (dataset : DcmDataset tk) (tempVal : OFString)
  (tag : DcmTagKey) : M (QString.t * OFString) :=
  found <- findAndGetOFString dataset tag ;;
  let tempVal := snd found in
  if good (fst found)
  then ret (QString.fromLatin1 (c_str tempVal), tempVal)
  else ret (QString.lit "N/A", tempVal).

Definition extractMetadata (path : QString.t) : M DicomMetadata :=
  let data := DicomMetadata_default in
  loaded <- loadFile (c_str (toStdString qt path)) ;;
  if good (fst loaded) then
    dataset <- getDataset (snd loaded) ;;
    let tempVal : OFString := [] in
    r <- getTag dataset tempVal DCM_PatientName ;;
    let data := set_patientName (fst r) data in
    r <- getTag dataset (snd r) DCM_PatientID ;;
    let data := set_patientID (fst r) data in
    r <- getTag dataset (snd r) DCM_StudyDate ;;
    let data := set_studyDate (fst r) data in
    r <- getTag dataset (snd r) DCM_Modality ;;
    let data := set_modality (fst r) data in
    r <- getTag dataset (snd r) DCM_InstitutionName ;;
    let data := set_institution (fst r) data in
    let data :=
      if Nat.eqb (QString.length (studyDate data)) 8
      then set_studyDate
             (QString.append
                (QString.append
                   (QString.append
                      (QString.append (QString.mid (studyDate data) 6 2)
                         (QString.lit "/"))
                      (QString.mid (studyDate data) 4 2))
                   (QString.lit "/"))
                (QString.left (studyDate data) 4))
             data
      else data in
    c <- findAndGetLongInt dataset DCM_Columns ;;
    let cols := snd c in
    r <- findAndGetLongInt dataset DCM_Rows ;;
    let rows := snd r in
    let data :=
      set_dimensions
        (QString.arg (localized_number qt)
           (QString.arg (localized_number qt)
              (QString.lit "%1 x %2 px") cols) rows)
        data in
    ret (set_isValid true data)
  else
    (qDebug "Erro ao ler metadados do arquivo:" path ;;;
     ret (set_isValid false data)).

End Methods.

End DicomManager.

(** ** Vocabulary of the statements *)

Section Vocabulary.

Variable tk : Dcmtk.
Variable qt : QtRuntime.

(** The file name both methods hand to DCMTK. *)
Definition file_name (path : QString.t) : list byte :=
  c_str (toStdString qt path).

(** The image object DCMTK builds for [path]. *)
Definition opened (p : Process) (path : QString.t) : DicomImage tk :=
  DicomImage_ctor tk (files p) (codecs p) (file_name path).

(** The object once the contrast window is chosen. *)
Definition windowed (image : DicomImage tk) : DicomImage tk :=
  let preset := DicomImage_setWindow tk image 0 in
  if fst preset =? 0
  then snd (DicomImage_setMinMaxWindow tk (snd preset) 0)
  else snd preset.

(** What [getOutputData(8)] yields on the windowed object. *)
Definition rendered (image : DicomImage tk) : option (list byte) :=
  fst (DicomImage_getOutputData tk (windowed image) 8).

(** The answer of [loadFile] for [path]. *)
Definition header (p : Process) (path : QString.t)
  : OFCondition * DcmDataset tk :=
  DcmFileFormat_loadFile tk (files p) (file_name path).

(** The tag is in the data set, with a string value. *)
Definition present (ds : DcmDataset tk) (tag : DcmTagKey) : bool :=
  good (fst (DcmItem_string tk ds tag)).

(** The Latin-1 decoding of the value of a tag (read as a C string). *)
Definition decoded (ds : DcmDataset tk) (tag : DcmTagKey) : QString.t :=
  QString.fromLatin1 (c_str (snd (DcmItem_string tk ds tag))).

(** A text is the decoding of the tag when the lookup succeeds and
    "N/A" when the tag is absent. *)
Definition decoded_or_absent (ds : DcmDataset tk) (tag : DcmTagKey)
  (text : QString.t) : Prop :=
  (present ds tag = true -> text = decoded ds tag) /\
  (present ds tag = false -> text = QString.lit "N/A").

(** The value of an integer tag, 0 when the lookup fails. *)
Definition long_or_zero (ds : DcmDataset tk) (tag : DcmTagKey) : Z :=
  if good (fst (DcmItem_long tk ds tag))
  then snd (DcmItem_long tk ds tag) else 0.

(** The five text fields are the decoded tags, and the record is
    valid: what the record of a parsed header would be if the study
    date were stored as it is read. *)
Definition all_five_fields_decoded (p : Process) (path : QString.t) : Prop :=
  good (fst (header p path)) = true ->
  exists data,
    snd (DicomManager.extractMetadata tk qt path p) = Returned data /\
    decoded_or_absent (snd (header p path)) DCM_PatientName (patientName data) /\
    decoded_or_absent (snd (header p path)) DCM_PatientID (patientID data) /\
    decoded_or_absent (snd (header p path)) DCM_StudyDate (studyDate data) /\
    decoded_or_absent (snd (header p path)) DCM_Modality (modality data) /\
    decoded_or_absent (snd (header p path)) DCM_InstitutionName (institution data) /\
    isValid data = true.

(** The text [getTag] returns for a tag. *)
Definition tag_text (ds : DcmDataset tk) (tag : DcmTagKey) : QString.t :=
  if present ds tag then decoded ds tag else QString.lit "N/A".

(** The text of the dimensions of a data set. *)
Definition dimensions_text (ds : DcmDataset tk) : QString.t :=
  QString.number (long_or_zero ds DCM_Columns) ++ QString.lit " x "
    ++ QString.number (long_or_zero ds DCM_Rows) ++ QString.lit " px".

(** The calls that choose the window of a fresh image object. *)
Definition windowing_calls (image : DicomImage tk) : list Event :=
  let preset := DicomImage_setWindow tk image 0 in
  Ev_setWindow 0 (fst preset)
    :: (if fst preset =? 0
        then [Ev_setMinMaxWindow 0
                (fst (DicomImage_setMinMaxWindow tk (snd preset) 0))]
        else []).

(** The calls that read the windowed object. *)
Definition rendering_calls (image : DicomImage tk) : list Event :=
  [ Ev_getWidth (DicomImage_getWidth tk (windowed image));
    Ev_getHeight (DicomImage_getHeight tk (windowed image));
    Ev_getOutputData 8
      (match rendered image with Some _ => true | None => false end) ].

(** The [QImage] built over the rendered buffer. *)
Definition view (image : DicomImage tk) (buffer : list byte) : QImage.t :=
  QImage.from_data (image_params_valid qt) buffer
    (to_int (DicomImage_getWidth tk (windowed image)))
    (to_int (DicomImage_getHeight tk (windowed image)))
    (to_int (DicomImage_getWidth tk (windowed image)))
    QImage.Format_Grayscale8.

(** A returned image has the size read from the object, positive, is
    8-bit grayscale, and its buffer is exactly width times height
    bytes long: what the image would be if its scan lines were
    packed. *)
Definition decoded_image_is_packed (p : Process) (path : QString.t) : Prop :=
  forall d,
    snd (DicomManager.loadDicomImage tk qt path p) = Returned (Some d) ->
    QImage.width d
      = to_int (DicomImage_getWidth tk (windowed (opened p path))) /\
    QImage.height d
      = to_int (DicomImage_getHeight tk (windowed (opened p path))) /\
    0 < QImage.width d /\ 0 < QImage.height d /\
    QImage.format d = QImage.Format_Grayscale8 /\
    Z.of_nat (List.length (QImage.bits d))
      = QImage.width d * QImage.height d.

End Vocabulary.

(** Characters of the statements. *)
Definition slash : QString.QChar := 47%N.

Definition is_digit (c : QString.QChar) : Prop := (48 <= c <= 57)%N.

(** The text of [raw] at positions [6:8], "/", [4:6], "/", [0:4]. *)
Definition rearranged (raw : QString.t) : QString.t :=
  firstn 2 (skipn 6 raw) ++ [slash] ++ firstn 2 (skipn 4 raw) ++ [slash]
    ++ firstn 4 raw.

(** The study date as stored: rearranged when the raw text has eight
    characters. *)
Definition stored_date (raw : QString.t) : QString.t :=
  if Nat.eqb (QString.length raw) 8 then rearranged raw else raw.

(** A text without the character that starts a place marker. *)
Definition no_percent (s : QString.t) : Prop :=
  Forall (fun c => c <> QString.percent) s.

(** The process after the calls [es]. *)
Definition logs (es : list Event) (p : Process) : Process :=
  mk_process (files p) (codecs p) (history p ++ es).

(** A call that chooses the contrast window. *)
Definition is_windowing (e : Event) : bool :=
  match e with
  | Ev_setWindow _ _ | Ev_setMinMaxWindow _ _ => true
  | _ => false
  end.

(** The call of the min/max fallback. *)
Definition is_fallback (e : Event) : bool :=
  match e with Ev_setMinMaxWindow _ _ => true | _ => false end.

(** Two states of the process with the same files and codecs. *)
Definition same_environment (p q : Process) : Prop :=
  files p = files q /\ codecs p = codecs q.

(** A computation that leaves files and codecs as they are and whose
    outcome depends on nothing else. *)
Definition stateless {A} (m : M A) : Prop :=
  forall p q, same_environment p q ->
    same_environment (fst (m p)) p /\ snd (m p) = snd (m q).

(** ** A test double of the two libraries

    Canned answers, keyed by the content of the file: what DCMTK would
    say of a handful of files. *)

Module Mock.

Record picture := mk_picture {
  columns : Z;
  rows : Z;
  has_preset : bool;
  frame : list byte
}.

Inductive element :=
| Str (v : OFString)
| Int (v : Z).

Definition dataset := list (DcmTagKey * element).

Record study := mk_study {
  pixel_part : option picture;
  header_part : option dataset
}.

Fixpoint bytes_eqb (a b : list byte) : bool :=
  match a, b with
  | [], [] => true
  | x :: a', y :: b' => Byte.eqb x y && bytes_eqb a' b'
  | _, _ => false
  end.

Fixpoint lookup {V} (key : list byte) (table : list (list byte * V))
  : option V :=
  match table with
  | [] => None
  | (k, v) :: rest => if bytes_eqb key k then Some v else lookup key rest
  end.

Definition tag_eqb (a b : DcmTagKey) : bool :=
  (N.eqb (fst a) (fst b) && N.eqb (snd a) (snd b))%bool.

Fixpoint find (tag : DcmTagKey) (ds : dataset) : option element :=
  match ds with
  | [] => None
  | (k, v) :: rest => if tag_eqb tag k then Some v else find tag rest
  end.

(** The state of an image object: what was parsed, and the window
    in force (0 none, 1 the preset, 2 min/max). *)
Record object := mk_object {
  parsed : option picture;
  window : nat
}.

Section Catalogue.

Variable catalogue : list (list byte * study).

Definition parse (content : option (list byte)) : option study :=
  match content with
  | Some bytes => lookup bytes catalogue
  | None => None
  end.

Definition library : Dcmtk := {|
  DicomImage := object;
  DicomImage_ctor := fun fs _ name =>
    match parse (fs name) with
    | Some s => mk_object (pixel_part s) 0
    | None => mk_object None 0
    end;
  DicomImage_getStatus := fun o =>
    match parsed o with Some _ => EIS_Normal | None => EIS_Failure 2 end;
  DicomImage_setWindow := fun o i =>
    match parsed o with
    | Some pic =>
        if has_preset pic && (i =? 0)
        then (1, mk_object (parsed o) 1) else (0, o)
    | None => (0, o)
    end;
  DicomImage_setMinMaxWindow := fun o _ =>
    match parsed o with
    | Some _ => (1, mk_object (parsed o) 2)
    | None => (0, o)
    end;
  DicomImage_getWidth := fun o =>
    match parsed o with Some pic => columns pic | None => 0 end;
  DicomImage_getHeight := fun o =>
    match parsed o with Some pic => rows pic | None => 0 end;
  DicomImage_getOutputData := fun o nbits =>
    (match parsed o with
     | Some pic => if nbits =? 8 then Some (frame pic) else None
     | None => None
     end, o);
  DcmDataset := dataset;
  DcmFileFormat_loadFile := fun fs name =>
    match parse (fs name) with
    | Some s =>
        match header_part s with
        | Some ds => (EC_Normal, ds)
        | None => (EC_Error 1, [])
        end
    | None => (EC_Error 2, [])
    end;
  DcmItem_string := fun ds tag =>
    match find tag ds with
    | Some (Str v) => (EC_Normal, v)
    | Some (Int _) => (EC_Error 3, [])
    | None => (EC_Error 4, [])
    end;
  DcmItem_long := fun ds tag =>
    match find tag ds with
    | Some (Int v) => (EC_Normal, v)
    | Some (Str _) => (EC_Error 3, 0)
    | None => (EC_Error 4, 0)
    end
|}.

End Catalogue.

(** Qt on file names in ASCII, with a default locale that prints
    numbers as the C locale does and memory that never runs out. *)
Definition qt : QtRuntime := {|
  toStdString := fun s =>
    flat_map (fun c => match Byte.of_N c with
                       | Some b => [b]
                       | None => []
                       end) s;
  localized_number := QString.number;
  image_params_valid := fun _ _ _ => true;
  image_malloc_ok := fun _ => true
|}.

Definition bytes (s : string) : list byte := list_byte_of_string s.

(** Three files: a 3 x 2 study of a CT with every tag, a 512 x 512
    header whose date is not a date and that has no picture, and a
    4 x 1 picture without preset whose header has no tag at all. *)
Definition ct_study : study :=
  mk_study
    (Some (mk_picture 3 2 true [x0a; x14; x1e; x28; x32; x3c]))
    (Some [ (DCM_PatientName, Str (bytes "DOE^JOHN"));
            (DCM_PatientID, Str (bytes "12345"));
            (DCM_StudyDate, Str (bytes "20240315"));
            (DCM_Modality, Str (bytes "CT"));
            (DCM_InstitutionName, Str (bytes "HOSPITAL"));
            (DCM_Columns, Int 3);
            (DCM_Rows, Int 2) ]).

Definition odd_study : study :=
  mk_study None
    (Some [ (DCM_StudyDate, Str (bytes "ABCDEFGH"));
            (DCM_Columns, Int 512);
            (DCM_Rows, Int 512) ]).

Definition bare_study : study :=
  mk_study (Some (mk_picture 4 1 false [x01; x02; x03; x04])) (Some []).

Definition catalogue : list (list byte * study) :=
  [ (bytes "CT", ct_study); (bytes "ODD", odd_study);
    (bytes "BARE", bare_study) ].

Definition tk : Dcmtk := library catalogue.

(** The disk: the three files, and one that is not DICOM. *)
Definition disk : FileSystem :=
  fun name => lookup name [ (bytes "ct.dcm", bytes "CT"); (bytes "odd.dcm", bytes "ODD");
             (bytes "bare.dcm", bytes "BARE");
             (bytes "notes.txt", bytes "hello") ].

Definition process : Process :=
  mk_process disk [DJDecoder; DJLSDecoder; DcmRLEDecoder] [].

Definition ct_path : QString.t := QString.lit "ct.dcm".
Definition odd_path : QString.t := QString.lit "odd.dcm".
Definition bare_path : QString.t := QString.lit "bare.dcm".
Definition notes_path : QString.t := QString.lit "notes.txt".

(** The image Qt holds for the 3 x 2 study: two scan lines of four
    bytes, the last byte of each never written. *)
Definition ct_image : QImage.data :=
  QImage.mk_data 3 2 QImage.Format_Grayscale8 4
    [ Some x0a; Some x14; Some x1e; None;
      Some x28; Some x32; Some x3c; None ].

End Mock.

(** ** Vocabulary of the further properties *)

Section FurtherVocabulary.

Variable tk : Dcmtk.
Variable qt : QtRuntime.

(** The width and the height the code reads, as [int]. *)
Definition read_width (image : DicomImage tk) : Z :=
  to_int (DicomImage_getWidth tk (windowed tk image)).

Definition read_height (image : DicomImage tk) : Z :=
  to_int (DicomImage_getHeight tk (windowed tk image)).

(** Qt takes the size read from the object and can allocate the copy:
    both numbers are positive, the byte count is representable and the
    memory of the aligned scan lines is granted. *)
Definition copy_allowed (image : DicomImage tk) : bool :=
  (0 <? read_width image) && (0 <? read_height image)
  && image_params_valid qt (read_width image) (read_height image) 8
  && image_malloc_ok qt
       (QImage.aligned_bytes_per_line (read_width image) 8 * read_height image).

End FurtherVocabulary.

(** A call that creates or destroys the image object. *)
Definition is_lifetime (e : Event) : bool :=
  match e with
  | Ev_new_DicomImage _ | Ev_delete_DicomImage => true
  | _ => false
  end.

(** A line of the debug stream. *)
Definition is_debug (e : Event) : bool :=
  match e with Ev_qDebug _ _ => true | _ => false end.

(** A code unit of Latin-1 other than NUL. *)
Definition latin1_not_nul (c : QString.QChar) : Prop := (1 <= c <= 255)%N.

(** The raw date read back from a stored DD/MM/YYYY text. *)
Definition date_read_back (stored : QString.t) : QString.t :=
  QString.mid stored 6 4 ++ QString.mid stored 3 2 ++ QString.left stored 2.

(** ** The window of main.cpp

    What [main] builds and what its handlers change: the page of the
    stacked widget, the three overlay labels, the toggle button, the
    items of the scene.  Everything else the handlers ask of Qt (the
    file dialog, the wait cursor, the progress dialog, the message box,
    the transform of the view) is recorded as an event.  Lengths that
    the code writes as doubles are kept exact: an offset in halves of a
    pixel, a scale factor in hundredths. *)

Module Main.

Local Open Scope process_scope.

(** A [QLabel]: its text, and whether it is shown ([setVisible]). *)
Record QLabel := mk_label {
  label_text : QString.t;
  label_shown : bool
}.

(** A [QGraphicsPixmapItem]: the pixmap of an image, and the offset of
    its top-left corner, in halves of a pixel. *)
Record QGraphicsPixmapItem := mk_item {
  item_pixmap : QImage.data;
  item_offset_halves : Z * Z
}.

Inductive GuiEvent :=
| Gui_getOpenFileName (caption directory filter answer : QString.t)
| Gui_setOverrideCursor
| Gui_restoreOverrideCursor
| Gui_progress_show
| Gui_progress_close
| Gui_processEvents
| Gui_critical (title text : QString.t)
| Gui_setSceneRect (x y w h : Z)
| Gui_fitInView_item (item : QGraphicsPixmapItem)
| Gui_fitInView_items (items : list QGraphicsPixmapItem)
| Gui_scale (sx_hundredths sy_hundredths : Z)
| Gui_centerOn (x y : Z).

Record Window := mk_window {
  currentIndex : Z;
  lblTopLeft : QLabel;
  lblTopRight : QLabel;
  lblBottomRight : QLabel;
  btnToggleInfo_checked : bool;
  btnToggleInfo_text : QString.t;
  scene_items : list QGraphicsPixmapItem;
  gui_events : list GuiEvent
}.

(** What the desktop answers: where the program is installed, which
    directories exist, and the value [app.exec()] returns. *)
Record Desktop := {
  applicationDirPath : QString.t;
  dir_exists : QString.t -> bool;
  exec_result : Z
}.

(** *** The calls on the widgets *)

Definition gui (e : GuiEvent) (w : Window) : Window :=
  mk_window (currentIndex w) (lblTopLeft w) (lblTopRight w)
    (lblBottomRight w) (btnToggleInfo_checked w) (btnToggleInfo_text w)
    (scene_items w) (gui_events w ++ [e]).

Definition setCurrentIndex (i : Z) (w : Window) : Window :=
  mk_window i (lblTopLeft w) (lblTopRight w) (lblBottomRight w)
    (btnToggleInfo_checked w) (btnToggleInfo_text w) (scene_items w)
    (gui_events w).

Definition set_scene (items : list QGraphicsPixmapItem) (w : Window) : Window :=
  mk_window (currentIndex w) (lblTopLeft w) (lblTopRight w)
    (lblBottomRight w) (btnToggleInfo_checked w) (btnToggleInfo_text w)
    items (gui_events w).

Definition scene_clear (w : Window) : Window := set_scene [] w.

Definition scene_add (item : QGraphicsPixmapItem) (w : Window) : Window :=
  set_scene (scene_items w ++ [item]) w.

Definition set_labels (tl tr br : QLabel) (w : Window) : Window :=
  mk_window (currentIndex w) tl tr br (btnToggleInfo_checked w)
    (btnToggleInfo_text w) (scene_items w) (gui_events w).

Definition set_toggle (checked : bool) (text : QString.t) (w : Window)
  : Window :=
  mk_window (currentIndex w) (lblTopLeft w) (lblTopRight w)
    (lblBottomRight w) checked text (scene_items w) (gui_events w).

(** [QLabel::setText], [clear] and [setVisible]. *)
Definition setText (text : QString.t) (l : QLabel) : QLabel :=
  mk_label text (label_shown l).

Definition clear (l : QLabel) : QLabel := mk_label QString.null (label_shown l).

Definition setVisible (visible : bool) (l : QLabel) : QLabel :=
  mk_label (label_text l) visible.

(** [QString::isEmpty]. *)
Definition isEmpty (s : QString.t) : bool :=
  match s with [] => true | _ :: _ => false end.

(** [QString::arg(const QString &)], field width 0: plain and [L]
    markers both take the text. *)
Definition arg_string (s a : QString.t) : QString.t := QString.arg_text s a a.

(** The line feed of the literals. *)
Definition LF : QString.t := [10%N].

(** The three formats of the overlay, and its placeholder (the literal
    METADADOS INDISPONIVEIS, whose I carries an acute accent, U+00CD). *)
Definition format_top_left : QString.t :=
  QString.lit "NOME: %1" ++ LF ++ QString.lit "ID: %2" ++ LF
    ++ QString.lit "MOD: %3".

Definition format_top_right : QString.t :=
  QString.lit "%1" ++ LF ++ QString.lit "DATA: %2".

Definition format_bottom_right : QString.t := QString.lit "DIM: %1".

Definition unavailable : QString.t :=
  QString.lit "METADADOS INDISPON" ++ [205%N] ++ QString.lit "VEIS".

Definition text_on : QString.t := QString.lit "Mostrar Metadados (On)".
Definition text_off : QString.t := QString.lit "Mostrar Metadados (Off)".

(** The window as [main] builds it: the welcome page, empty labels that
    were never hidden, the toggle checked, an empty scene. *)
Definition initial_window : Window :=
  mk_window 0 (mk_label QString.null true) (mk_label QString.null true)
    (mk_label QString.null true) true text_on [] [].

Section Handlers.

Variable tk : Dcmtk.
Variable qt : QtRuntime.
Variable desktop : Desktop.

(** The directory the file dialog starts in. *)
Definition initialDir : QString.t :=
  let dir :=
    QString.append (applicationDirPath desktop)
      (QString.lit "/../ArquivosDesafio") in
  if negb (dir_exists desktop dir)
  then QString.append (applicationDirPath desktop) (QString.lit "/..")
  else dir.

(** The overlay of a valid record, and of one that is not. *)
Definition show_overlay (meta : DicomMetadata) (w : Window) : Window :=
  if isValid meta then
    set_labels
      (setText
         (arg_string
            (arg_string (arg_string format_top_left (patientName meta))
               (patientID meta))
            (modality meta))
         (lblTopLeft w))
      (setText
         (arg_string (arg_string format_top_right (institution meta))
            (studyDate meta))
         (lblTopRight w))
      (setText (arg_string format_bottom_right (dimensions meta))
         (lblBottomRight w))
      w
  else
    set_labels (setText unavailable (lblTopLeft w)) (clear (lblTopRight w))
      (clear (lblBottomRight w)) w.

(** The lambda [openDicomAction]; [answer] is what the file dialog
    returns, the empty string when the user cancels. *)
Definition openDicomAction (answer : QString.t) (w : Window) : M Window :=
  let w :=
    gui (Gui_getOpenFileName (QString.lit "Abrir DICOM") initialDir
           (QString.lit "Arquivos DICOM (*.dcm);;Todos os Arquivos (*)")
           answer) w in
  let path := answer in
  if negb (isEmpty path) then
    let w := gui Gui_setOverrideCursor w in
    let w := gui Gui_progress_show w in
    let w := gui Gui_processEvents w in
    img <- DicomManager.loadDicomImage tk qt path ;;
    meta <- DicomManager.extractMetadata tk qt path ;;
    let w := gui Gui_progress_close w in
    let w := gui Gui_restoreOverrideCursor w in
    match img with
    | Some image =>
        let w := scene_clear w in
        let w := gui (Gui_setSceneRect (-10000) (-10000) 20000 20000) w in
        let item :=
          mk_item image (- QImage.width image, - QImage.height image) in
        let w := scene_add item w in
        let w := gui (Gui_fitInView_item item) w in
        let w := gui (Gui_scale 95 95) w in
        let w := gui (Gui_centerOn 0 0) w in
        let w := show_overlay meta w in
        ret (setCurrentIndex 1 w)
    | None =>
        ret (gui (Gui_critical (QString.lit "Erro")
                    (QString.lit "Falha ao processar imagem DICOM.")) w)
    end
  else ret w.

(** The window [openDicomAction] leaves when the dialog was answered
    and both calls returned [img] and [meta]. *)
Definition after_open (answer : QString.t) (img : QImage.t)
  (meta : DicomMetadata) (w : Window) : Window :=
  let w :=
    gui (Gui_getOpenFileName (QString.lit "Abrir DICOM") initialDir
           (QString.lit "Arquivos DICOM (*.dcm);;Todos os Arquivos (*)")
           answer) w in
  let w := gui Gui_setOverrideCursor w in
  let w := gui Gui_progress_show w in
  let w := gui Gui_processEvents w in
  let w := gui Gui_progress_close w in
  let w := gui Gui_restoreOverrideCursor w in
  match img with
  | Some image =>
      let w := scene_clear w in
      let w := gui (Gui_setSceneRect (-10000) (-10000) 20000 20000) w in
      let item :=
        mk_item image (- QImage.width image, - QImage.height image) in
      let w := scene_add item w in
      let w := gui (Gui_fitInView_item item) w in
      let w := gui (Gui_scale 95 95) w in
      let w := gui (Gui_centerOn 0 0) w in
      let w := show_overlay meta w in
      setCurrentIndex 1 w
  | None =>
      gui (Gui_critical (QString.lit "Erro")
             (QString.lit "Falha ao processar imagem DICOM.")) w
  end.

(** The slot of [toggled(bool)]. *)
Definition on_toggled (checked : bool) (w : Window) : Window :=
  let w :=
    set_labels (setVisible checked (lblTopLeft w))
      (setVisible checked (lblTopRight w))
      (setVisible checked (lblBottomRight w)) w in
  if checked
  then set_toggle (btnToggleInfo_checked w) text_on w
  else set_toggle (btnToggleInfo_checked w) text_off w.

(** [btnToggleInfo->toggle()], and a click on the checkable button:
    the state flips and [toggled] is emitted with the new state. *)
Definition toggle (w : Window) : Window :=
  let checked := negb (btnToggleInfo_checked w) in
  on_toggled checked (set_toggle checked (btnToggleInfo_text w) w).

(** The slot of [btnBack]. *)
Definition back (w : Window) : Window :=
  setCurrentIndex 0 (scene_clear w).

(** What the user can do: the buttons and the shortcuts. *)
Inductive Action :=
| Open (answer : QString.t)
| ZoomIn
| ZoomOut
| Fit
| ToggleInfo
| Back
| KeyZoomIn
| KeyZoomOut
| KeyReset
| KeyInfo.

Definition handle (a : Action) (w : Window) : M Window :=
  match a with
  | Open answer => openDicomAction answer w
  | ZoomIn => ret (gui (Gui_scale 125 125) w)
  | ZoomOut => ret (gui (Gui_scale 80 80) w)
  | Fit => ret (gui (Gui_fitInView_items (scene_items w)) w)
  | ToggleInfo => ret (toggle w)
  | Back => ret (back w)
  | KeyZoomIn => ret (gui (Gui_scale 120 120) w)
  | KeyZoomOut => ret (gui (Gui_scale 80 80) w)
  | KeyReset =>
      ret (gui (Gui_centerOn 0 0) (gui (Gui_fitInView_items (scene_items w)) w))
  | KeyInfo => ret (toggle w)
  end.

(** The event loop on a list of actions. *)
Fixpoint session (actions : list Action) (w : Window) : M Window :=
  match actions with
  | [] => ret w
  | a :: rest => w' <- handle a w ;; session rest w'
  end.

End Handlers.

(** *** Codec registration *)

Definition Codec_eqb (a b : Codec) : bool :=
  match a, b with
  | DJDecoder, DJDecoder | DJLSDecoder, DJLSDecoder
  | DcmRLEDecoder, DcmRLEDecoder => true
  | _, _ => false
  end.

(** [registerCodecs()] does nothing when the codec is registered. *)
Definition registerCodecs (c : Codec) : M unit :=
  fun p =>
    (mk_process (files p)
       (if existsb (Codec_eqb c) (codecs p) then codecs p
        else codecs p ++ [c])
       (history p), Returned tt).

(** [cleanup()] takes the codec out of the registry. *)
Definition cleanup (c : Codec) : M unit :=
  fun p =>
    (mk_process (files p)
       (filter (fun c' => negb (Codec_eqb c c')) (codecs p))
       (history p), Returned tt).

(** [main]: the codecs, the window, the event loop, the codecs. *)
Definition main (tk : Dcmtk) (qt : QtRuntime) (desktop : Desktop)
  (actions : list Action) : M Z :=
  registerCodecs DJDecoder ;;;
  registerCodecs DJLSDecoder ;;;
  registerCodecs DcmRLEDecoder ;;;
  let window := initial_window in
  _ <- session tk qt desktop actions window ;;
  let result := exec_result desktop in
  cleanup DJDecoder ;;;
  cleanup DJLSDecoder ;;;
  cleanup DcmRLEDecoder ;;;
  ret result.

(** *** Vocabulary *)

(** The labels follow the toggle button. *)
Definition overlay_follows_toggle (w : Window) : Prop :=
  label_shown (lblTopLeft w) = btnToggleInfo_checked w /\
  label_shown (lblTopRight w) = btnToggleInfo_checked w /\
  label_shown (lblBottomRight w) = btnToggleInfo_checked w /\
  btnToggleInfo_text w
  = (if btnToggleInfo_checked w then text_on else text_off).

(** The page and the scene agree: the welcome page with an empty scene,
    or the viewer page with one item. *)
Definition page_matches_scene (w : Window) : Prop :=
  (currentIndex w = 0 /\ scene_items w = []) \/
  (currentIndex w = 1 /\ exists item, scene_items w = [item]).

(** The texts of the overlay of a record. *)
Definition overlay_texts (meta : DicomMetadata)
  : QString.t * QString.t * QString.t :=
  if isValid meta then
    (arg_string
       (arg_string (arg_string format_top_left (patientName meta))
          (patientID meta))
       (modality meta),
     arg_string (arg_string format_top_right (institution meta))
       (studyDate meta),
     arg_string format_bottom_right (dimensions meta))
  else (unavailable, QString.null, QString.null).

(** The image on display and the overlay come from one file. *)
Definition overlay_matches_image (tk : Dcmtk) (qt : QtRuntime)
  (p : Process) (w : Window) : Prop :=
  forall item, In item (scene_items w) ->
    exists path meta,
      snd (DicomManager.loadDicomImage tk qt path p)
      = Returned (Some (item_pixmap item)) /\
      snd (DicomManager.extractMetadata tk qt path p) = Returned meta /\
      (label_text (lblTopLeft w), label_text (lblTopRight w),
       label_text (lblBottomRight w)) = overlay_texts meta.

(** What the handlers keep of a window when they change nothing the
    user sees. *)
Definition same_view (w w' : Window) : Prop :=
  currentIndex w' = currentIndex w /\
  lblTopLeft w' = lblTopLeft w /\
  lblTopRight w' = lblTopRight w /\
  lblBottomRight w' = lblBottomRight w /\
  btnToggleInfo_checked w' = btnToggleInfo_checked w /\
  btnToggleInfo_text w' = btnToggleInfo_text w /\
  scene_items w' = scene_items w.

(** The events a handler adds to the ones of [w]. *)
Definition gui_added (w w' : Window) : list GuiEvent :=
  skipn (List.length (gui_events w)) (gui_events w').

(** Every wait cursor that was set was restored. *)
Definition cursor_balanced (events : list GuiEvent) : Prop :=
  List.length (filter (fun e => match e with
                                | Gui_setOverrideCursor => true
                                | _ => false
                                end) events)
  = List.length (filter (fun e => match e with
                                  | Gui_restoreOverrideCursor => true
                                  | _ => false
                                  end) events).

(** What every handler keeps of the window. *)
Definition kept (w : Window) : Prop :=
  page_matches_scene w /\ overlay_follows_toggle w /\
  cursor_balanced (gui_events w).

Definition is_critical (e : GuiEvent) : bool :=
  match e with Gui_critical _ _ => true | _ => false end.

Definition is_loadFile (e : Event) : bool :=
  match e with Ev_loadFile _ _ => true | _ => false end.

End Main.

(** ** More files for the test double, and a desktop *)

Module Bench.

(** A 4 x 2 picture whose rendered buffer holds three bytes, a picture
    of width 0, and a 2 x 2 study whose patient name ends in the place
    marker of the patient ID. *)
Definition short_study : Mock.study :=
  Mock.mk_study (Some (Mock.mk_picture 4 2 true [x01; x02; x03])) None.

Definition flat_study : Mock.study :=
  Mock.mk_study (Some (Mock.mk_picture 0 5 true [])) None.

Definition marker_study : Mock.study :=
  Mock.mk_study
    (Some (Mock.mk_picture 2 2 true [x01; x02; x03; x04]))
    (Some [ (DCM_PatientName, Mock.Str (Mock.bytes "DOE%2"));
            (DCM_PatientID, Mock.Str (Mock.bytes "77"));
            (DCM_Modality, Mock.Str (Mock.bytes "MR")) ]).

Definition catalogue : list (list byte * Mock.study) :=
  [ (Mock.bytes "SHORT", short_study); (Mock.bytes "FLAT", flat_study);
    (Mock.bytes "MARKER", marker_study) ].

Definition tk : Dcmtk := Mock.library catalogue.

Definition disk : FileSystem :=
  fun name =>
    Mock.lookup name
      [ (Mock.bytes "short.dcm", Mock.bytes "SHORT");
        (Mock.bytes "flat.dcm", Mock.bytes "FLAT");
        (Mock.bytes "marker.dcm", Mock.bytes "MARKER") ].

Definition process : Process :=
  mk_process disk [DJDecoder; DJLSDecoder; DcmRLEDecoder] [].

Definition short_path : QString.t := QString.lit "short.dcm".
Definition flat_path : QString.t := QString.lit "flat.dcm".

(** A desktop without the directory ArquivosDesafio. *)
Definition desktop : Main.Desktop := {|
  Main.applicationDirPath := QString.lit "C:/viewer/build";
  Main.dir_exists := fun _ => false;
  Main.exec_result := 0
|}.

(** A visit: open the CT study, hide the overlay, try a file that is
    not DICOM, zoom, reset, cancel a dialog, go back. *)
Definition visit : list Main.Action :=
  [ Main.Open Mock.ct_path; Main.ToggleInfo; Main.Open Mock.notes_path;
    Main.ZoomIn; Main.KeyReset; Main.Open []; Main.Back ].

End Bench.

(** * Properties *)

(** ** Running the monad *)

Lemma call_run {A} (e : Event) (a : A) (p : Process) :
  call e a p = (logs [e] p, Returned a).
Proof. reflexivity. Qed.

Lemma emit_run (e : Event) (p : Process) :
  emit e p = (logs [e] p, Returned tt).
Proof. reflexivity. Qed.

Lemma bind_run {A B} (m : M A) (f : A -> M B) (p p' : Process) (a : A) :
  m p = (p', Returned a) -> bind m f p = f a p'.
Proof. intros H. unfold bind. rewrite H. reflexivity. Qed.

Lemma added_app (h new : list Event) : added h (h ++ new) = new.
Proof.
  unfold added. induction h as [|e h IH]; simpl; auto.
Qed.

Lemma EI_Status_eqb_eq (a b : EI_Status) :
  EI_Status_eqb a b = true <-> a = b.
Proof.
  destruct a as [|m], b as [|n]; simpl; split; intros H;
    try reflexivity; try discriminate.
  - apply Nat.eqb_eq in H. now subst.
  - injection H as ->. apply Nat.eqb_refl.
Qed.

(** ** The texts [arg] builds *)

Module QStringFacts.

Import QString.

Lemma tokens_text (s rest : t) :
  no_percent s -> tokens (s ++ rest) = map Text s ++ tokens rest.
Proof.
  induction 1 as [|c s Hc _ IH]; [reflexivity|].
  cbn [app map]. rewrite <- IH.
  apply N.eqb_neq in Hc. cbn [tokens]. rewrite Hc. reflexivity.
Qed.

Lemma min_escape_text (s : t) (ts : list token) :
  min_escape (map Text s ++ ts) = min_escape ts.
Proof. induction s as [|c s IH]; simpl; auto. Qed.

Lemma replace_text (n : nat) (a la s : t) (ts : list token) :
  replace n a la (map Text s ++ ts) = s ++ replace n a la ts.
Proof. induction s as [|c s IH]; simpl; [|rewrite IH]; reflexivity. Qed.

Lemma no_percent_uint (d : Decimal.uint) :
  no_percent (lit (NilEmpty.string_of_uint d)).
Proof.
  induction d; simpl; constructor; auto; discriminate.
Qed.

Lemma no_percent_number (a : Z) : no_percent (number a).
Proof.
  unfold number. destruct (Z.to_int a) as [d|d]; simpl.
  - apply no_percent_uint.
  - constructor; [discriminate | apply no_percent_uint].
Qed.

Lemma tokens_dimensions_format :
  tokens (lit "%1 x %2 px")
  = [Marker 1 false (lit "%1"); Text 32%N; Text 120%N; Text 32%N;
     Marker 2 false (lit "%2"); Text 32%N; Text 112%N; Text 120%N].
Proof. vm_compute. reflexivity. Qed.

Lemma tokens_dimensions_tail :
  tokens (lit " x %2 px")
  = [Text 32%N; Text 120%N; Text 32%N;
     Marker 2 false (lit "%2"); Text 32%N; Text 112%N; Text 120%N].
Proof. vm_compute. reflexivity. Qed.

(** The first [arg] fills [%1] and leaves [%2]. *)
Lemma arg_text_first (a la : t) :
  arg_text (lit "%1 x %2 px") a la = a ++ lit " x %2 px".
Proof.
  unfold arg_text. cbv zeta. rewrite tokens_dimensions_format.
  reflexivity.
Qed.

(** The second [arg] finds [%2] alone, past a text without [%]. *)
Lemma arg_text_second (s a la : t) :
  no_percent s ->
  arg_text (s ++ lit " x %2 px") a la = s ++ lit " x " ++ a ++ lit " px".
Proof.
  intros Hs. unfold arg_text. cbv zeta.
  rewrite (tokens_text _ _ Hs), min_escape_text, tokens_dimensions_tail.
  cbn [min_escape]. rewrite replace_text. reflexivity.
Qed.

(** The format of the dimensions, filled with two numbers. *)
Lemma arg_dimensions (localized : Z -> t) (cols rows : Z) :
  arg localized (arg localized (lit "%1 x %2 px") cols) rows
  = number cols ++ lit " x " ++ number rows ++ lit " px".
Proof.
  unfold arg. rewrite arg_text_first.
  apply arg_text_second, no_percent_number.
Qed.

End QStringFacts.

(** ** The record extractMetadata builds *)

Section ExtractorFacts.

Variable tk : Dcmtk.
Variable qt : QtRuntime.

Import DicomManager.

Lemma getTag_run (ds : DcmDataset tk) (tempVal : OFString)
  (tag : DcmTagKey) (p : Process) :
  exists tempVal',
    getTag tk ds tempVal tag p
    = (logs [Ev_findAndGetOFString tag (fst (DcmItem_string tk ds tag))] p,
       Returned (tag_text tk ds tag, tempVal')).
Proof.
  unfold getTag, findAndGetOFString, tag_text, present, decoded, bind.
  rewrite call_run.
  destruct (DcmItem_string tk ds tag) as [c v]; cbn [fst snd].
  destruct (good c) eqn:G; cbn [fst snd]; rewrite G; eexists; reflexivity.
Qed.

Lemma getTag_bind {B} (ds : DcmDataset tk) (tempVal : OFString)
  (tag : DcmTagKey) (k : QString.t * OFString -> M B) (p : Process) :
  exists tempVal',
    bind (getTag tk ds tempVal tag) k p
    = k (tag_text tk ds tag, tempVal')
        (logs [Ev_findAndGetOFString tag (fst (DcmItem_string tk ds tag))] p).
Proof.
  destruct (getTag_run ds tempVal tag p) as [t Ht].
  exists t. apply bind_run, Ht.
Qed.

Lemma findAndGetLongInt_bind {B} (ds : DcmDataset tk) (tag : DcmTagKey)
  (k : OFCondition * Z -> M B) (p : Process) :
  bind (findAndGetLongInt tk ds tag) k p
  = k (fst (DcmItem_long tk ds tag), long_or_zero tk ds tag)
      (logs [Ev_findAndGetLongInt tag (fst (DcmItem_long tk ds tag))] p).
Proof.
  unfold findAndGetLongInt, long_or_zero.
  erewrite bind_run by apply call_run.
  destruct (DcmItem_long tk ds tag) as [c v]; cbn [fst snd].
  destruct (good c); reflexivity.
Qed.

(** The record of a header that parses, field by field. *)
Lemma extractMetadata_parsed (path : QString.t) (p : Process) :
  good (fst (header tk qt p path)) = true ->
  let ds := snd (header tk qt p path) in
  snd (extractMetadata tk qt path p)
  = Returned
      (mk_metadata (tag_text tk ds DCM_PatientName)
         (tag_text tk ds DCM_PatientID)
         (stored_date (tag_text tk ds DCM_StudyDate))
         (tag_text tk ds DCM_Modality)
         (tag_text tk ds DCM_InstitutionName)
         (dimensions_text tk ds) true).
Proof.
  intros Hgood ds. unfold extractMetadata.
  unfold loadFile, with_environment.
  erewrite bind_run by apply call_run.
  fold (file_name qt path). fold (header tk qt p path). rewrite Hgood.
  unfold getDataset. erewrite bind_run by apply call_run.
  fold ds.
  repeat match goal with
         | |- context [bind (getTag tk ?d ?tv ?tag) ?k ?q] =>
             destruct (getTag_bind d tv tag k q) as [? ->]; cbn [fst snd]
         end.
  rewrite !findAndGetLongInt_bind.
  cbn [fst snd]. unfold ret. cbn [snd].
  rewrite QStringFacts.arg_dimensions.
  unfold set_isValid, set_dimensions, set_institution, set_modality,
    set_studyDate, set_patientID, set_patientName, DicomMetadata_default.
  cbn [patientName patientID studyDate modality institution dimensions isValid].
  unfold stored_date, rearranged, dimensions_text.
  destruct (Nat.eqb _ 8);
    cbn [patientName patientID studyDate modality institution dimensions
           isValid];
    [|reflexivity].
  unfold QString.append, QString.mid, QString.left.
  change (QString.lit "/") with [slash].
  rewrite <- !app_assoc. reflexivity.
Qed.

(** The record of a header that does not parse. *)
Lemma extractMetadata_failed (path : QString.t) (p : Process) :
  good (fst (header tk qt p path)) = false ->
  snd (extractMetadata tk qt path p)
  = Returned (mk_metadata [] [] [] [] [] [] false).
Proof.
  intros Hbad. unfold extractMetadata.
  unfold loadFile, with_environment.
  erewrite bind_run by apply call_run.
  fold (file_name qt path). fold (header tk qt p path). rewrite Hbad.
  reflexivity.
Qed.

End ExtractorFacts.

Section ExtractorClaims.

Variable tk : Dcmtk.
Variable qt : QtRuntime.

Import DicomManager.

Lemma tag_text_decoded_or_absent (ds : DcmDataset tk) (tag : DcmTagKey) :
  decoded_or_absent tk ds tag (tag_text tk ds tag).
Proof.
  unfold decoded_or_absent, tag_text.
  destruct (present tk ds tag); split; intros H;
    try reflexivity; discriminate.
Qed.

Lemma tag_text_of_value (ds : DcmDataset tk) (tag : DcmTagKey) (v : OFString) :
  DcmItem_string tk ds tag = (EC_Normal, v) ->
  tag_text tk ds tag = QString.fromLatin1 (c_str v).
Proof.
  intros H. unfold tag_text, present, decoded. rewrite H. reflexivity.
Qed.

Lemma eight_characters (s : QString.t) :
  QString.length s = 8%nat ->
  exists c0 c1 c2 c3 c4 c5 c6 c7, s = [c0; c1; c2; c3; c4; c5; c6; c7].
Proof.
  unfold QString.length. intros H.
  do 8 (destruct s as [|? s]; [discriminate|]).
  destruct s; [|discriminate]. repeat eexists.
Qed.

(** C4: when the header parses and the raw study date (the decoded
    tag, or "N/A") is eight digits YYYYMMDD, the studyDate field is
    DD/MM/YYYY, built from positions [6:8], "/", [4:6], "/", [0:4] of
    the raw text; a raw text whose length is not 8 is stored as it
    is; raw "20240315" gives "15/03/2024". *)
Theorem studyDate_of_eight_digits (path : QString.t) (p : Process) :
  good (fst (header tk qt p path)) = true ->
  exists data raw,
    snd (extractMetadata tk qt path p) = Returned data /\
    decoded_or_absent tk (snd (header tk qt p path)) DCM_StudyDate raw /\
    (forall y1 y2 y3 y4 m1 m2 d1 d2,
        raw = [y1; y2; y3; y4; m1; m2; d1; d2] ->
        Forall is_digit raw ->
        studyDate data = [d1; d2; slash; m1; m2; slash; y1; y2; y3; y4]) /\
    (QString.length raw <> 8%nat -> studyDate data = raw) /\
    (DcmItem_string tk (snd (header tk qt p path)) DCM_StudyDate
       = (EC_Normal, list_byte_of_string "20240315") ->
     studyDate data = QString.lit "15/03/2024").
Proof.
  intros Hgood. eexists. exists (tag_text tk (snd (header tk qt p path)) DCM_StudyDate).
  split; [apply (extractMetadata_parsed tk qt path p Hgood)|].
  split; [apply tag_text_decoded_or_absent|].
  cbn [studyDate]. repeat split.
  - intros y1 y2 y3 y4 m1 m2 d1 d2 -> _. reflexivity.
  - intros Hlen. unfold stored_date.
    apply Nat.eqb_neq in Hlen. rewrite Hlen. reflexivity.
  - intros Hv. rewrite (tag_text_of_value _ _ _ Hv). reflexivity.
Qed.

(** C9: the rewrite of the study date is triggered by the length of
    the raw text alone: any eight characters c0..c7, digits or not,
    are stored as c6 c7 "/" c4 c5 "/" c0 c1 c2 c3; "ABCDEFGH" becomes
    "GH/EF/ABCD". *)
Theorem studyDate_rewrite_by_length_alone (path : QString.t) (p : Process) :
  good (fst (header tk qt p path)) = true ->
  exists data raw,
    snd (extractMetadata tk qt path p) = Returned data /\
    decoded_or_absent tk (snd (header tk qt p path)) DCM_StudyDate raw /\
    (QString.length raw = 8%nat ->
     exists c0 c1 c2 c3 c4 c5 c6 c7,
       raw = [c0; c1; c2; c3; c4; c5; c6; c7] /\
       studyDate data = [c6; c7; slash; c4; c5; slash; c0; c1; c2; c3]) /\
    (DcmItem_string tk (snd (header tk qt p path)) DCM_StudyDate
       = (EC_Normal, list_byte_of_string "ABCDEFGH") ->
     studyDate data = QString.lit "GH/EF/ABCD").
Proof.
  intros Hgood. eexists. exists (tag_text tk (snd (header tk qt p path)) DCM_StudyDate).
  split; [apply (extractMetadata_parsed tk qt path p Hgood)|].
  split; [apply tag_text_decoded_or_absent|].
  cbn [studyDate]. split.
  - intros Hlen.
    destruct (eight_characters _ Hlen)
      as (c0 & c1 & c2 & c3 & c4 & c5 & c6 & c7 & Hraw).
    exists c0, c1, c2, c3, c4, c5, c6, c7. split; [exact Hraw|].
    rewrite Hraw. reflexivity.
  - intros Hv. rewrite (tag_text_of_value _ _ _ Hv). reflexivity.
Qed.

(** C5, amended: when the header parses, patientName, patientID,
    modality and institution are the Latin-1 decoding of their tag
    (read as a C string) when the lookup succeeds and "N/A" when the
    tag is absent; studyDate is that same text when its length is not
    8 (so "N/A" when the tag is absent) and its DD/MM/YYYY
    rearrangement when it is 8; isValid is true whatever tags are
    missing. *)
Theorem text_fields_of_parsed_header (path : QString.t) (p : Process) :
  good (fst (header tk qt p path)) = true ->
  exists data raw,
    snd (extractMetadata tk qt path p) = Returned data /\
    decoded_or_absent tk (snd (header tk qt p path)) DCM_PatientName
      (patientName data) /\
    decoded_or_absent tk (snd (header tk qt p path)) DCM_PatientID
      (patientID data) /\
    decoded_or_absent tk (snd (header tk qt p path)) DCM_Modality
      (modality data) /\
    decoded_or_absent tk (snd (header tk qt p path)) DCM_InstitutionName
      (institution data) /\
    decoded_or_absent tk (snd (header tk qt p path)) DCM_StudyDate raw /\
    studyDate data
      = (if Nat.eqb (QString.length raw) 8 then rearranged raw else raw) /\
    (present tk (snd (header tk qt p path)) DCM_StudyDate = false ->
     studyDate data = QString.lit "N/A") /\
    isValid data = true.
Proof.
  intros Hgood. eexists. exists (tag_text tk (snd (header tk qt p path)) DCM_StudyDate).
  split; [apply (extractMetadata_parsed tk qt path p Hgood)|].
  cbn [patientName patientID studyDate modality institution isValid].
  repeat (split; [apply tag_text_decoded_or_absent|]).
  repeat split.
  intros Habsent. unfold tag_text. rewrite Habsent. reflexivity.
Qed.

(** C6: when the header does not parse, extractMetadata returns a
    record (no undefined behaviour) whose isValid is false and whose
    text fields are all in their default, empty state. *)
Theorem extractMetadata_reports_parse_failure (path : QString.t) (p : Process) :
  good (fst (header tk qt p path)) = false ->
  snd (extractMetadata tk qt path p)
  = Returned (mk_metadata QString.null QString.null QString.null
                QString.null QString.null QString.null false).
Proof. apply extractMetadata_failed. Qed.

(** C7: when the header parses, the dimensions field is the decimal
    text of Columns, " x ", the decimal text of Rows and " px", each
    number being 0 when its tag is absent and printed as it is
    otherwise (a negative value keeps its sign); Columns = 512 and
    Rows = 512 give "512 x 512 px". *)
Theorem dimensions_of_parsed_header (path : QString.t) (p : Process) :
  good (fst (header tk qt p path)) = true ->
  exists data,
    snd (extractMetadata tk qt path p) = Returned data /\
    dimensions data
      = QString.number (long_or_zero tk (snd (header tk qt p path)) DCM_Columns)
          ++ QString.lit " x "
          ++ QString.number (long_or_zero tk (snd (header tk qt p path)) DCM_Rows)
          ++ QString.lit " px" /\
    (DcmItem_long tk (snd (header tk qt p path)) DCM_Columns = (EC_Normal, 512) ->
     DcmItem_long tk (snd (header tk qt p path)) DCM_Rows = (EC_Normal, 512) ->
     dimensions data = QString.lit "512 x 512 px") /\
    (DcmItem_long tk (snd (header tk qt p path)) DCM_Columns = (EC_Normal, -3) ->
     good (fst (DcmItem_long tk (snd (header tk qt p path)) DCM_Rows)) = false ->
     dimensions data = QString.lit "-3 x 0 px").
Proof.
  intros Hgood. eexists.
  split; [apply (extractMetadata_parsed tk qt path p Hgood)|].
  cbn [dimensions]. unfold dimensions_text, long_or_zero. repeat split.
  - intros -> ->. reflexivity.
  - intros -> ->. reflexivity.
Qed.

(** C10: the record of a header that does not parse has every string
    field empty, dimensions included, so it differs in every field
    from the record of a header that parses and has none of the
    tags, whose text fields are "N/A" and whose dimensions are
    "0 x 0 px". *)
Theorem failed_parse_is_distinguishable
  (path1 path2 : QString.t) (p1 p2 : Process) :
  good (fst (header tk qt p1 path1)) = false ->
  good (fst (header tk qt p2 path2)) = true ->
  (forall tag, present tk (snd (header tk qt p2 path2)) tag = false) ->
  (forall tag, good (fst (DcmItem_long tk (snd (header tk qt p2 path2)) tag)) = false) ->
  exists failed bare,
    snd (extractMetadata tk qt path1 p1) = Returned failed /\
    snd (extractMetadata tk qt path2 p2) = Returned bare /\
    (patientName failed = [] /\ patientID failed = [] /\
     studyDate failed = [] /\ modality failed = [] /\
     institution failed = [] /\ dimensions failed = [] /\
     isValid failed = false) /\
    (patientName bare = QString.lit "N/A" /\
     patientID bare = QString.lit "N/A" /\
     studyDate bare = QString.lit "N/A" /\
     modality bare = QString.lit "N/A" /\
     institution bare = QString.lit "N/A" /\
     dimensions bare = QString.lit "0 x 0 px" /\
     isValid bare = true) /\
    (patientName failed <> patientName bare /\
     patientID failed <> patientID bare /\
     studyDate failed <> studyDate bare /\
     modality failed <> modality bare /\
     institution failed <> institution bare /\
     dimensions failed <> dimensions bare /\
     isValid failed <> isValid bare).
Proof.
  intros Hbad Hgood Hnone Hnolong. do 2 eexists.
  split; [apply (extractMetadata_failed tk qt path1 p1 Hbad)|].
  split; [apply (extractMetadata_parsed tk qt path2 p2 Hgood)|].
  cbn [patientName patientID studyDate modality institution dimensions
         isValid].
  unfold tag_text, dimensions_text, long_or_zero.
  rewrite !Hnone, !Hnolong.
  repeat split; discriminate.
Qed.

End ExtractorClaims.

(** ** The environment of a run

    How the monad threads the files and the codec registry: lemmas the
    handlers of [main.cpp] need. *)

Lemma same_environment_refl (p : Process) : same_environment p p.
Proof. split; reflexivity. Qed.

Lemma same_environment_sym (p q : Process) :
  same_environment p q -> same_environment q p.
Proof. intros [H1 H2]. split; congruence. Qed.

Lemma same_environment_trans (p q r : Process) :
  same_environment p q -> same_environment q r -> same_environment p r.
Proof. intros [H1 H2] [H3 H4]. split; congruence. Qed.

Lemma stateless_ret {A} (a : A) : stateless (ret a).
Proof. intros p q _. split; [apply same_environment_refl | reflexivity]. Qed.

Lemma stateless_lift {A} (o : Outcome A) : stateless (lift o).
Proof. intros p q _. split; [apply same_environment_refl | reflexivity]. Qed.

Lemma stateless_emit (e : Event) : stateless (emit e).
Proof. intros p q _. split; [split; reflexivity | reflexivity]. Qed.

Lemma stateless_bind {A B} (m : M A) (f : A -> M B) :
  stateless m -> (forall a, stateless (f a)) -> stateless (bind m f).
Proof.
  intros Hm Hf p q Hpq. unfold bind.
  destruct (Hm p q Hpq) as [Hp Hout].
  destruct (Hm q p (same_environment_sym _ _ Hpq)) as [Hq _].
  destruct (m p) as [p' [a|]], (m q) as [q' [b|]]; cbn [fst snd] in *;
    try discriminate.
  - injection Hout as <-.
    assert (Hpq' : same_environment p' q').
    { eapply same_environment_trans; [exact Hp|].
      eapply same_environment_trans; [exact Hpq|].
      apply same_environment_sym, Hq. }
    destruct (Hf a p' q' Hpq') as [Hp' Hout']. split; [|exact Hout'].
    eapply same_environment_trans; eassumption.
  - split; [exact Hp | reflexivity].
Qed.

Lemma stateless_call {A} (e : Event) (a : A) : stateless (call e a).
Proof.
  apply stateless_bind; [apply stateless_emit | intros; apply stateless_ret].
Qed.

Lemma stateless_with_environment {A} (k : FileSystem -> list Codec -> M A) :
  (forall fs registry, stateless (k fs registry)) ->
  stateless (with_environment k).
Proof.
  intros Hk p q Hpq. unfold with_environment.
  destruct Hpq as [Hf Hc]. rewrite <- Hf, <- Hc.
  apply Hk. split; assumption.
Qed.

Ltac stateless_step :=
  first
    [ apply stateless_ret
    | apply stateless_lift
    | apply stateless_emit
    | apply stateless_call
    | apply stateless_with_environment; intros
    | apply stateless_bind; [|intros]
    | match goal with
      | |- stateless (match ?x with _ => _ end) => destruct x
      | |- stateless (let (_, _) := ?x in _) => destruct x
      end ].

Section Stateless.

Variable tk : Dcmtk.
Variable qt : QtRuntime.

Import DicomManager.

Lemma loadDicomImage_stateless (path : QString.t) :
  stateless (loadDicomImage tk qt path).
Proof.
  unfold loadDicomImage, new_DicomImage, getStatus, setWindow,
    setMinMaxWindow, getWidth, getHeight, getOutputData, delete_DicomImage.
  repeat stateless_step.
Qed.

Lemma extractMetadata_stateless (path : QString.t) :
  stateless (extractMetadata tk qt path).
Proof.
  unfold extractMetadata, loadFile, getDataset, getTag, findAndGetOFString,
    findAndGetLongInt, qDebug.
  repeat stateless_step.
Qed.

Lemma stateless_after {A B} (m : M A) (m' : M B) (p : Process) :
  stateless m -> stateless m' -> snd (m (fst (m' p))) = snd (m p).
Proof.
  intros Hm Hm'.
  destruct (Hm' p p (same_environment_refl p)) as [Henv _].
  apply Hm, Henv.
Qed.

End Stateless.

(** ** What [copy] does to the memory of an image *)

Module QImageFacts.

Import QImage.

Lemma aligned_bytes_per_line_8 (w : Z) :
  aligned_bytes_per_line w 8 = 4 * ((w + 3) / 4).
Proof.
  unfold aligned_bytes_per_line.
  rewrite Z.shiftl_mul_pow2, Z.shiftr_div_pow2 by lia.
  change (2 ^ 5) with 32. change (2 ^ 2) with 4.
  Z.div_mod_to_equations. lia.
Qed.

Lemma read_returned (mem : memory) (off n : nat) (m : memory) :
  read mem off n = Returned m ->
  (off + n <= List.length mem)%nat /\ m = firstn n (skipn off mem).
Proof.
  unfold read. destruct (off + n <=? List.length mem)%nat eqn:E;
    [|discriminate].
  intros H. injection H as <-. apply Nat.leb_le in E. auto.
Qed.

Lemma read_length (mem : memory) (off n : nat) (m : memory) :
  read mem off n = Returned m -> List.length m = n.
Proof.
  intros H. apply read_returned in H as [Hle ->].
  rewrite length_firstn, length_skipn. lia.
Qed.

Lemma read_nth (mem : memory) (off n : nat) (m : memory) (x : nat) :
  read mem off n = Returned m -> (x < n)%nat ->
  nth_error m x = nth_error mem (off + x).
Proof.
  intros H Hx. apply read_returned in H as [Hle ->].
  rewrite nth_error_firstn.
  destruct (Nat.ltb_spec x n); [|lia].
  apply nth_error_skipn.
Qed.

Lemma copy_scanlines_length (src : memory) (stride n pad rows off : nat)
  (m : memory) :
  copy_scanlines src off stride n pad rows = Returned m ->
  List.length m = (rows * (n + pad))%nat.
Proof.
  revert off m. induction rows as [|rows IH]; intros off m; cbn [copy_scanlines].
  - intros H. injection H as <-. reflexivity.
  - destruct (read src off n) as [line|] eqn:Hline; [|discriminate].
    destruct (copy_scanlines src (off + stride) stride n pad rows)
      as [rest|] eqn:Hrest; [|discriminate].
    intros H. injection H as <-.
    rewrite !length_app, repeat_length, (read_length _ _ _ _ Hline),
      (IH _ _ Hrest).
    lia.
Qed.

Lemma copy_scanlines_nth (src : memory) (stride n pad rows off : nat)
  (m : memory) (x y : nat) :
  copy_scanlines src off stride n pad rows = Returned m ->
  (y < rows)%nat -> (x < n)%nat ->
  nth_error m (y * (n + pad) + x) = nth_error src (off + y * stride + x).
Proof.
  revert off m y. induction rows as [|rows IH]; intros off m y;
    cbn [copy_scanlines]; [lia|].
  destruct (read src off n) as [line|] eqn:Hline; [|discriminate].
  destruct (copy_scanlines src (off + stride) stride n pad rows)
    as [rest|] eqn:Hrest; [|discriminate].
  intros H Hy Hx. injection H as <-.
  pose proof (read_length _ _ _ _ Hline) as Hlen.
  destruct y as [|y].
  - change (0 * (n + pad) + x)%nat with x.
    rewrite nth_error_app1 by lia.
    rewrite (read_nth _ _ _ _ _ Hline Hx). f_equal. lia.
  - rewrite nth_error_app2 by (simpl; lia).
    rewrite nth_error_app2 by (rewrite repeat_length; simpl; lia).
    rewrite repeat_length, Hlen.
    replace (S y * (n + pad) + x - n - pad)%nat with (y * (n + pad) + x)%nat
      by (simpl; lia).
    rewrite (IH _ _ y Hrest) by lia. f_equal. simpl. lia.
Qed.

Lemma copy_scanlines_bound (src : memory) (stride n pad rows off : nat)
  (m : memory) :
  copy_scanlines src off stride n pad (S rows) = Returned m ->
  (off + rows * stride + n <= List.length src)%nat.
Proof.
  revert off m. induction rows as [|rows IH]; intros off m.
  - cbn [copy_scanlines].
    destruct (read src off n) as [line|] eqn:Hline; [|discriminate].
    intros _. apply read_returned in Hline. lia.
  - remember (S rows) as k. cbn [copy_scanlines].
    destruct (read src off n) as [line|]; [|discriminate].
    destruct (copy_scanlines src (off + stride) stride n pad k)
      as [rest|] eqn:Hrest; [|discriminate].
    intros _. subst k. apply IH in Hrest. lia.
Qed.

Section CopyOfView.

Variable params_valid : Z -> Z -> Z -> bool.
Variable malloc_ok : Z -> bool.

(** The image [loadDicomImage] returns, from the buffer it got:
    what [copy] makes of the view [QImage(pixelData, width, height,
    width, Format_Grayscale8)]. *)
Lemma copy_of_view (buffer : list byte) (w h : Z) (d : data) :
  copy params_valid malloc_ok
    (from_data params_valid buffer w h w Format_Grayscale8)
  = Returned (Some d) ->
  width d = w /\ height d = h /\ 0 < w /\ 0 < h /\
  format d = Format_Grayscale8 /\
  bytes_per_line d = 4 * ((w + 3) / 4) /\
  Z.of_nat (List.length (bits d)) = bytes_per_line d * h /\
  w * h <= Z.of_nat (List.length buffer) /\
  (forall x y, 0 <= x < w -> 0 <= y < h ->
     byte_at d x y = nth_error buffer (Z.to_nat (y * w + x))).
Proof.
  unfold from_data.
  destruct ((w <=? 0) || (h <=? 0)) eqn:Hpos; [discriminate|].
  apply orb_false_elim in Hpos as [Hw Hh].
  apply Z.leb_gt in Hw, Hh.
  destruct (params_valid w h (depth Format_Grayscale8)) eqn:Hvalid;
    cbn [negb]; [|discriminate].
  replace (0 <? w) with true by (symmetry; apply Z.ltb_lt; lia).
  replace (w <? (w * depth Format_Grayscale8 + 7) / 8) with false
    by (symmetry; apply Z.ltb_ge; cbn [depth];
        Z.div_mod_to_equations; lia).
  unfold copy, create. cbn [width height format bytes_per_line bits].
  replace ((w <=? 0) || (h <=? 0)) with false
    by (symmetry; apply orb_false_intro; apply Z.leb_gt; lia).
  rewrite Hvalid. cbn [negb].
  destruct (malloc_ok _); cbn [negb]; [|discriminate].
  unfold nbytes. cbn [width height format bytes_per_line bits depth].
  rewrite aligned_bytes_per_line_8.
  set (bpl := 4 * ((w + 3) / 4)).
  assert (Hbpl : w <= bpl)
    by (unfold bpl; Z.div_mod_to_equations; lia).
  destruct (bpl * h =? w * h) eqn:Hsame.
  - apply Z.eqb_eq in Hsame.
    assert (Heq : bpl = w) by nia.
    destruct (read (map Some buffer) 0 (Z.to_nat (w * h))) as [m|] eqn:Hm;
      [|discriminate].
    intros H. injection H as <-.
    cbn [width height format bytes_per_line bits].
    pose proof (read_length _ _ _ _ Hm) as Hlen.
    pose proof (read_returned _ _ _ _ Hm) as [Hle _].
    rewrite length_map in Hle.
    do 6 (split; [first [reflexivity | lia]|]).
    split; [rewrite Hlen; nia|].
    split; [nia|].
    intros x y Hx Hy. unfold byte_at.
    { cbn [bits bytes_per_line]. rewrite Heq.
      rewrite (read_nth _ _ _ _ (Z.to_nat (y * w + x)) Hm) by nia.
      cbn [Nat.add]. rewrite nth_error_map.
      destruct (nth_error buffer _); reflexivity. }
  - apply Z.eqb_neq in Hsame.
    rewrite Z.min_l by exact Hbpl.
    destruct (copy_scanlines (map Some buffer) 0 (Z.to_nat w) (Z.to_nat w)
                (Z.to_nat (bpl - w)) (Z.to_nat h)) as [m|] eqn:Hm;
      [|discriminate].
    intros H. injection H as <-.
    cbn [width height format bytes_per_line bits].
    pose proof (copy_scanlines_length _ _ _ _ _ _ _ Hm) as Hlen.
    assert (Hbound : w * h <= Z.of_nat (List.length buffer)).
    { destruct (Z.to_nat h) as [|k] eqn:Hk; [lia|].
      apply copy_scanlines_bound in Hm. rewrite length_map in Hm.
      nia. }
    do 6 (split; [first [reflexivity | lia]|]).
    split; [rewrite Hlen; nia|].
    split; [exact Hbound|].
    intros x y Hx Hy. unfold byte_at.
    { cbn [bits bytes_per_line].
      replace (Z.to_nat (y * bpl + x))
        with (Z.to_nat y * (Z.to_nat w + Z.to_nat (bpl - w))
              + Z.to_nat x)%nat by nia.
      rewrite (copy_scanlines_nth _ _ _ _ _ _ _ _ _ Hm) by lia.
      replace (0 + Z.to_nat y * Z.to_nat w + Z.to_nat x)%nat
        with (Z.to_nat (y * w + x)) by nia.
      rewrite nth_error_map.
      destruct (nth_error buffer _); reflexivity. }
Qed.

End CopyOfView.

End QImageFacts.

(** ** The image loadDicomImage returns *)

Section DecoderClaims.

Variable tk : Dcmtk.
Variable qt : QtRuntime.

Import DicomManager.

Ltac run_decoder :=
  cbv beta iota zeta delta
    [loadDicomImage new_DicomImage delete_DicomImage getStatus setWindow
       setMinMaxWindow getWidth getHeight getOutputData
       bind call emit ret lift with_environment];
  cbn [fst snd files codecs history].

Lemma logs_eq (p : Process) (h : list Event) (es : list Event) :
  h = history p ++ es ->
  mk_process (files p) (codecs p) h = logs es p.
Proof. intros ->. reflexivity. Qed.

(** A file DCMTK does not accept: the object is deleted at once. *)
Lemma loadDicomImage_rejected (path : QString.t) (p : Process) :
  DicomImage_getStatus tk (opened tk qt p path) <> EIS_Normal ->
  loadDicomImage tk qt path p
  = (logs [Ev_new_DicomImage (file_name qt path);
           Ev_getStatus (DicomImage_getStatus tk (opened tk qt p path));
           Ev_delete_DicomImage] p,
     Returned QImage.null).
Proof.
  intros Hstatus. run_decoder. fold (file_name qt path).
  fold (opened tk qt p path).
  destruct (EI_Status_eqb _ EIS_Normal) eqn:E.
  - apply EI_Status_eqb_eq in E. contradiction.
  - cbn [negb files codecs history]. f_equal. apply logs_eq.
    rewrite <- !app_assoc. reflexivity.
Qed.

(** A file DCMTK accepts: window, size, rendering, copy. *)
Lemma loadDicomImage_accepted (path : QString.t) (p : Process) :
  DicomImage_getStatus tk (opened tk qt p path) = EIS_Normal ->
  let image := opened tk qt p path in
  let calls :=
    [Ev_new_DicomImage (file_name qt path); Ev_getStatus EIS_Normal]
      ++ windowing_calls tk image ++ rendering_calls tk image in
  loadDicomImage tk qt path p
  = match rendered tk image with
    | Some buffer =>
        match QImage.copy (image_params_valid qt) (image_malloc_ok qt)
                (view tk qt image buffer) with
        | Returned finalImage =>
            (logs (calls ++ [Ev_delete_DicomImage]) p, Returned finalImage)
        | Undefined => (logs calls p, Undefined)
        end
    | None => (logs (calls ++ [Ev_delete_DicomImage]) p, Returned QImage.null)
    end.
Proof.
  intros Hstatus image calls. subst image calls.
  run_decoder. fold (file_name qt path). fold (opened tk qt p path).
  rewrite Hstatus. cbn [EI_Status_eqb negb].
  unfold windowing_calls, rendering_calls, view, rendered, windowed.
  destruct (fst (DicomImage_setWindow tk (opened tk qt p path) 0) =? 0);
    cbn [fst snd files codecs history];
    (destruct (fst (DicomImage_getOutputData tk _ 8)) as [buffer|];
     [destruct (QImage.copy _ _ _)|]);
    cbn [files codecs history]; f_equal; apply logs_eq;
    rewrite <- ?app_assoc; reflexivity.
Qed.

(** C1: when DCMTK does not report the file as normal (it is not
    DICOM, truncated, empty, or of a transfer syntax it cannot
    decode), or when rendering yields no pixel data, decode returns
    the null image, whatever the cause: it returns, and returns
    nothing else. *)
Theorem decode_failure_is_null (path : QString.t) (p : Process) :
  DicomImage_getStatus tk (opened tk qt p path) <> EIS_Normal \/
  rendered tk (opened tk qt p path) = None ->
  snd (loadDicomImage tk qt path p) = Returned QImage.null.
Proof.
  intros H.
  destruct (EI_Status_eqb (DicomImage_getStatus tk (opened tk qt p path))
              EIS_Normal) eqn:E.
  - apply EI_Status_eqb_eq in E.
    destruct H as [H|H]; [contradiction|].
    rewrite (loadDicomImage_accepted path p E). cbv zeta. rewrite H.
    reflexivity.
  - rewrite loadDicomImage_rejected; [reflexivity|].
    intros Hn. rewrite Hn in E. discriminate.
Qed.

(** C2: on a file DCMTK accepts, decode first calls setWindow(0), the
    attempt to apply the first stored preset; it calls setMinMaxWindow
    if and only if that attempt answered 0, right after it, and makes
    no other windowing call; and the object it then measures and
    renders is the one the windowing left: the state after
    setMinMaxWindow when the preset attempt failed, the state after
    setWindow(0) otherwise.  Width, height and pixel data are read
    from that object, and the image returned is built from them. *)
Theorem preset_attempt_then_fallback (path : QString.t) (p : Process) :
  DicomImage_getStatus tk (opened tk qt p path) = EIS_Normal ->
  let preset := DicomImage_setWindow tk (opened tk qt p path) 0 in
  let fallback := DicomImage_setMinMaxWindow tk (snd preset) 0 in
  let chosen := if fst preset =? 0 then snd fallback else snd preset in
  exists tail,
    (tail = [] \/ tail = [Ev_delete_DicomImage]) /\
    added (history p) (history (fst (loadDicomImage tk qt path p)))
    = [Ev_new_DicomImage (file_name qt path); Ev_getStatus EIS_Normal;
       Ev_setWindow 0 (fst preset)]
        ++ (if fst preset =? 0
            then [Ev_setMinMaxWindow 0 (fst fallback)]
            else [])
        ++ [Ev_getWidth (DicomImage_getWidth tk chosen);
            Ev_getHeight (DicomImage_getHeight tk chosen);
            Ev_getOutputData 8
              (match fst (DicomImage_getOutputData tk chosen 8) with
               | Some _ => true
               | None => false
               end)]
        ++ tail /\
    forallb (fun e => negb (is_windowing e))
      ([Ev_getWidth (DicomImage_getWidth tk chosen);
        Ev_getHeight (DicomImage_getHeight tk chosen);
        Ev_getOutputData 8
          (match fst (DicomImage_getOutputData tk chosen 8) with
           | Some _ => true
           | None => false
           end)] ++ tail) = true /\
    existsb is_fallback
      (added (history p) (history (fst (loadDicomImage tk qt path p))))
    = (fst preset =? 0) /\
    snd (loadDicomImage tk qt path p)
    = match fst (DicomImage_getOutputData tk chosen 8) with
      | Some buffer =>
          QImage.copy (image_params_valid qt) (image_malloc_ok qt)
            (QImage.from_data (image_params_valid qt) buffer
               (to_int (DicomImage_getWidth tk chosen))
               (to_int (DicomImage_getHeight tk chosen))
               (to_int (DicomImage_getWidth tk chosen))
               QImage.Format_Grayscale8)
      | None => Returned QImage.null
      end.
Proof.
  intros Hstatus. cbv zeta.
  rewrite (loadDicomImage_accepted path p Hstatus). cbv zeta.
  unfold windowing_calls, rendering_calls, view, rendered, windowed.
  set (image := opened tk qt p path).
  destruct (fst (DicomImage_setWindow tk image 0) =? 0);
    match goal with
    | |- context [DicomImage_getOutputData tk ?chosen 8] =>
        destruct (fst (DicomImage_getOutputData tk chosen 8)) as [buffer|]
    end;
    try match goal with
        | |- context [QImage.copy ?v ?m ?i] =>
            destruct (QImage.copy v m i) as [finalImage|]
        end;
    cbn [fst snd logs history]; rewrite added_app;
    first [ exists [Ev_delete_DicomImage];
            split; [right; reflexivity|];
            split; [cbn [app]; rewrite <- ?app_assoc; reflexivity|];
            repeat split
          | exists [];
            split; [left; reflexivity|];
            split; [cbn [app]; rewrite ?app_nil_r; reflexivity|];
            repeat split ].
Qed.

Lemma to_int_small (z : Z) : 0 <= z < 2 ^ 31 -> to_int z = z.
Proof.
  intros H. unfold to_int. rewrite Z.mod_small; lia.
Qed.

Lemma loadDicomImage_returned (path : QString.t) (p : Process)
  (d : QImage.data) :
  snd (loadDicomImage tk qt path p) = Returned (Some d) ->
  exists buffer,
    rendered tk (opened tk qt p path) = Some buffer /\
    QImage.copy (image_params_valid qt) (image_malloc_ok qt)
      (view tk qt (opened tk qt p path) buffer) = Returned (Some d).
Proof.
  intros H.
  destruct (EI_Status_eqb (DicomImage_getStatus tk (opened tk qt p path))
              EIS_Normal) eqn:E.
  - apply EI_Status_eqb_eq in E.
    rewrite (loadDicomImage_accepted path p E) in H. cbv zeta in H.
    destruct (rendered tk (opened tk qt p path)) as [buffer|];
      [|discriminate].
    exists buffer. split; [reflexivity|].
    destruct (QImage.copy _ _ _); [exact H | discriminate].
  - rewrite loadDicomImage_rejected in H; [discriminate|].
    intros Hn. rewrite Hn in E. discriminate.
Qed.

(** C3, amended: when decode returns an image, its width and height
    are the ones read from the windowed object (as int), both are
    positive, its format is 8-bit grayscale, one byte per pixel, and
    byte x of scan line y is byte y * width + x of the rendered
    buffer; its scan lines are aligned on 32 bits: bytesPerLine is
    width rounded up to a multiple of 4 and the buffer is
    bytesPerLine * height bytes long, which is width * height when
    width is a multiple of 4. *)
Theorem decoded_image_layout (path : QString.t) (p : Process)
  (d : QImage.data) :
  snd (loadDicomImage tk qt path p) = Returned (Some d) ->
  QImage.width d
    = to_int (DicomImage_getWidth tk (windowed tk (opened tk qt p path))) /\
  QImage.height d
    = to_int (DicomImage_getHeight tk (windowed tk (opened tk qt p path))) /\
  (0 <= DicomImage_getWidth tk (windowed tk (opened tk qt p path)) < 2 ^ 31 ->
   QImage.width d
     = DicomImage_getWidth tk (windowed tk (opened tk qt p path))) /\
  (0 <= DicomImage_getHeight tk (windowed tk (opened tk qt p path)) < 2 ^ 31 ->
   QImage.height d
     = DicomImage_getHeight tk (windowed tk (opened tk qt p path))) /\
  0 < QImage.width d /\ 0 < QImage.height d /\
  QImage.format d = QImage.Format_Grayscale8 /\
  QImage.depth (QImage.format d) = 8 /\
  QImage.bytes_per_line d = 4 * ((QImage.width d + 3) / 4) /\
  Z.of_nat (List.length (QImage.bits d))
    = QImage.bytes_per_line d * QImage.height d /\
  (QImage.width d mod 4 = 0 ->
   Z.of_nat (List.length (QImage.bits d))
     = QImage.width d * QImage.height d) /\
  exists buffer,
    rendered tk (opened tk qt p path) = Some buffer /\
    QImage.width d * QImage.height d <= Z.of_nat (List.length buffer) /\
    forall x y, 0 <= x < QImage.width d -> 0 <= y < QImage.height d ->
      QImage.byte_at d x y
      = nth_error buffer (Z.to_nat (y * QImage.width d + x)).
Proof.
  intros H.
  destruct (loadDicomImage_returned path p d H) as (buffer & Hbuf & Hcopy).
  apply QImageFacts.copy_of_view in Hcopy.
  destruct Hcopy as (Hw & Hh & Hwpos & Hhpos & Hf & Hbpl & Hlen & Hsize & Hpix).
  rewrite <- Hw in Hwpos, Hbpl, Hsize, Hpix.
  rewrite <- Hh in Hhpos, Hlen, Hsize, Hpix.
  split; [exact Hw|]. split; [exact Hh|].
  split; [intros Hr; rewrite Hw; apply to_int_small, Hr|].
  split; [intros Hr; rewrite Hh; apply to_int_small, Hr|].
  split; [exact Hwpos|]. split; [exact Hhpos|].
  split; [exact Hf|]. split; [rewrite Hf; reflexivity|].
  split; [exact Hbpl|]. split; [exact Hlen|].
  split.
  - intros Hmod. rewrite Hlen, Hbpl. f_equal.
    Z.div_mod_to_equations. lia.
  - exists buffer. auto.
Qed.

End DecoderClaims.

(** ** The claims at work on the test double *)

Section Witnesses.

Import DicomManager.

Lemma decode_failure_is_null_witness :
DicomImage_getStatus Mock.tk
  (opened Mock.tk Mock.qt Mock.process Mock.notes_path) <> EIS_Normal /\
snd (loadDicomImage Mock.tk Mock.qt Mock.notes_path Mock.process)
= Returned QImage.null.
Proof.
assert (H : DicomImage_getStatus Mock.tk
              (opened Mock.tk Mock.qt Mock.process Mock.notes_path)
            <> EIS_Normal) by (vm_compute; discriminate).
split; [exact H|].
apply (decode_failure_is_null Mock.tk Mock.qt Mock.notes_path Mock.process).
left. exact H.
Defined.

Lemma preset_attempt_then_fallback_witness :
  DicomImage_getStatus Mock.tk
    (opened Mock.tk Mock.qt Mock.process Mock.bare_path) = EIS_Normal /\
  existsb is_fallback
    (added (history Mock.process)
       (history (fst (loadDicomImage Mock.tk Mock.qt Mock.bare_path
                        Mock.process))))
  = true.
Proof.
  split; [reflexivity|].
  destruct (preset_attempt_then_fallback Mock.tk Mock.qt Mock.bare_path
              Mock.process eq_refl) as (tail & _ & _ & _ & Hfallback & _).
  rewrite Hfallback. reflexivity.
Defined.

Lemma decoded_image_layout_witness :
snd (loadDicomImage Mock.tk Mock.qt Mock.ct_path Mock.process)
= Returned (Some Mock.ct_image) /\
QImage.bytes_per_line Mock.ct_image
= 4 * ((QImage.width Mock.ct_image + 3) / 4) /\
Z.of_nat (List.length (QImage.bits Mock.ct_image))
= QImage.bytes_per_line Mock.ct_image * QImage.height Mock.ct_image.
Proof.
split; [reflexivity|].
destruct (decoded_image_layout Mock.tk Mock.qt Mock.ct_path Mock.process
            Mock.ct_image eq_refl)
  as (_ & _ & _ & _ & _ & _ & _ & _ & Hbpl & Hlen & _).
split; [exact Hbpl | exact Hlen].
Defined.

(** C3 as stated fails: the image of the 3 x 2 study has a buffer of
  8 bytes, not 6. *)
Lemma decoded_image_is_not_packed :
~ decoded_image_is_packed Mock.tk Mock.qt Mock.process Mock.ct_path.
Proof.
intros H.
destruct (H Mock.ct_image eq_refl) as (_ & _ & _ & _ & _ & Hlen).
vm_compute in Hlen. discriminate.
Qed.

Lemma studyDate_of_eight_digits_witness :
good (fst (header Mock.tk Mock.qt Mock.process Mock.ct_path)) = true /\
exists data,
  snd (extractMetadata Mock.tk Mock.qt Mock.ct_path Mock.process)
  = Returned data /\
  studyDate data = QString.lit "15/03/2024".
Proof.
split; [reflexivity|].
destruct (studyDate_of_eight_digits Mock.tk Mock.qt Mock.ct_path
            Mock.process eq_refl)
  as (data & raw & Hrun & _ & _ & _ & Hexample).
exists data. split; [exact Hrun|]. apply Hexample. reflexivity.
Defined.

Lemma studyDate_rewrite_by_length_alone_witness :
good (fst (header Mock.tk Mock.qt Mock.process Mock.odd_path)) = true /\
exists data,
  snd (extractMetadata Mock.tk Mock.qt Mock.odd_path Mock.process)
  = Returned data /\
  studyDate data = QString.lit "GH/EF/ABCD".
Proof.
split; [reflexivity|].
destruct (studyDate_rewrite_by_length_alone Mock.tk Mock.qt Mock.odd_path
            Mock.process eq_refl)
  as (data & raw & Hrun & _ & _ & Hexample).
exists data. split; [exact Hrun|]. apply Hexample. reflexivity.
Defined.

(** C5 as stated fails: the study date "20240315" of the CT study is
  stored as "15/03/2024", which is not the decoding of the tag. *)
Lemma studyDate_is_not_the_decoded_tag :
~ all_five_fields_decoded Mock.tk Mock.qt Mock.process Mock.ct_path.
Proof.
intros H.
destruct (H eq_refl) as (data & Hrun & _ & _ & [Hdate _] & _).
vm_compute in Hrun. injection Hrun as <-.
specialize (Hdate eq_refl). vm_compute in Hdate. discriminate.
Qed.

Lemma text_fields_of_parsed_header_witness :
good (fst (header Mock.tk Mock.qt Mock.process Mock.odd_path)) = true /\
exists data,
  snd (extractMetadata Mock.tk Mock.qt Mock.odd_path Mock.process)
  = Returned data /\
  decoded_or_absent Mock.tk
    (snd (header Mock.tk Mock.qt Mock.process Mock.odd_path))
    DCM_PatientName (patientName data) /\
  isValid data = true.
Proof.
split; [reflexivity|].
destruct (text_fields_of_parsed_header Mock.tk Mock.qt Mock.odd_path
            Mock.process eq_refl)
  as (data & raw & Hrun & Hname & _ & _ & _ & _ & _ & _ & Hvalid).
exists data. split; [exact Hrun|]. split; [exact Hname | exact Hvalid].
Defined.

Lemma extractMetadata_reports_parse_failure_witness :
good (fst (header Mock.tk Mock.qt Mock.process Mock.notes_path)) = false /\
snd (extractMetadata Mock.tk Mock.qt Mock.notes_path Mock.process)
= Returned (mk_metadata QString.null QString.null QString.null
              QString.null QString.null QString.null false).
Proof.
split; [reflexivity|].
apply (extractMetadata_reports_parse_failure Mock.tk Mock.qt
         Mock.notes_path Mock.process).
reflexivity.
Defined.

Lemma dimensions_of_parsed_header_witness :
good (fst (header Mock.tk Mock.qt Mock.process Mock.odd_path)) = true /\
exists data,
  snd (extractMetadata Mock.tk Mock.qt Mock.odd_path Mock.process)
  = Returned data /\
  dimensions data = QString.lit "512 x 512 px".
Proof.
split; [reflexivity|].
destruct (dimensions_of_parsed_header Mock.tk Mock.qt Mock.odd_path
            Mock.process eq_refl)
  as (data & Hrun & _ & Hexample & _).
exists data. split; [exact Hrun|]. apply Hexample; reflexivity.
Defined.

Lemma failed_parse_is_distinguishable_witness :
good (fst (header Mock.tk Mock.qt Mock.process Mock.notes_path)) = false /\
good (fst (header Mock.tk Mock.qt Mock.process Mock.bare_path)) = true /\
exists failed bare,
  snd (extractMetadata Mock.tk Mock.qt Mock.notes_path Mock.process)
  = Returned failed /\
  snd (extractMetadata Mock.tk Mock.qt Mock.bare_path Mock.process)
  = Returned bare /\
  dimensions failed = [] /\
  dimensions bare = QString.lit "0 x 0 px" /\
  dimensions failed <> dimensions bare.
Proof.
split; [reflexivity|]. split; [reflexivity|].
destruct (failed_parse_is_distinguishable Mock.tk Mock.qt
            Mock.notes_path Mock.bare_path Mock.process Mock.process
            eq_refl eq_refl (fun tag => eq_refl) (fun tag => eq_refl))
  as (failed & bare & Hfailed & Hbare & Hempty & Hna & Hdiff).
exists failed, bare.
split; [exact Hfailed|]. split; [exact Hbare|].
split; [apply Hempty|]. split; [apply Hna | apply Hdiff].
Defined.

End Witnesses.

(** ** When decode succeeds, refuses, or reads too far *)

Module CopyFacts.

Import QImage.

Lemma read_defined (mem : memory) (off n : nat) :
  (off + n <= List.length mem)%nat -> exists m, read mem off n = Returned m.
Proof.
  intros H. unfold read.
  destruct (Nat.leb_spec (off + n) (List.length mem)); [eauto | lia].
Qed.

Lemma read_undefined (mem : memory) (off n : nat) :
  (List.length mem < off + n)%nat -> read mem off n = Undefined.
Proof.
  intros H. unfold read.
  destruct (Nat.leb_spec (off + n) (List.length mem)); [lia | reflexivity].
Qed.

Lemma copy_scanlines_defined (src : memory) (stride n pad rows off : nat) :
  (off + rows * stride + n <= List.length src + stride)%nat ->
  exists m, copy_scanlines src off stride n pad rows = Returned m.
Proof.
  revert off. induction rows as [|rows IH]; intros off H; cbn [copy_scanlines].
  - eauto.
  - destruct (read_defined src off n) as [line ->]; [nia|].
    destruct (IH (off + stride)%nat) as [rest ->]; [nia|]. eauto.
Qed.

Lemma copy_scanlines_undefined (src : memory) (stride n pad rows off : nat) :
  (List.length src + stride < off + S rows * stride + n)%nat ->
  copy_scanlines src off stride n pad (S rows) = Undefined.
Proof.
  revert off. induction rows as [|rows IH]; intros off H.
  - cbn [copy_scanlines]. rewrite read_undefined by lia. reflexivity.
  - remember (S rows) as k. cbn [copy_scanlines].
    destruct (read src off n); [|reflexivity].
    subst k. rewrite IH by lia. reflexivity.
Qed.

Section CopyOutcome.

Variable params_valid : Z -> Z -> Z -> bool.
Variable malloc_ok : Z -> bool.

(** The three ways [copy] of the view can end. *)
Lemma copy_of_view_cases (buffer : list byte) (w h : Z) :
  let allowed :=
    (0 <? w) && (0 <? h) && params_valid w h 8
    && malloc_ok (aligned_bytes_per_line w 8 * h) in
  let outcome :=
    copy params_valid malloc_ok
      (from_data params_valid buffer w h w Format_Grayscale8) in
  (allowed = false /\ outcome = Returned None) \/
  (allowed = true /\ w * h <= Z.of_nat (List.length buffer) /\
   exists d, outcome = Returned (Some d)) \/
  (allowed = true /\ Z.of_nat (List.length buffer) < w * h /\
   outcome = Undefined).
Proof.
  cbv zeta. unfold from_data.
  destruct (Z.ltb_spec 0 w) as [Hw|Hw]; cbn [andb];
    [|left; split; [reflexivity|];
      replace (w <=? 0) with true by (symmetry; apply Z.leb_le; lia);
      reflexivity].
  destruct (Z.ltb_spec 0 h) as [Hh|Hh]; cbn [andb];
    [|left; split; [reflexivity|];
      replace (h <=? 0) with true by (symmetry; apply Z.leb_le; lia);
      rewrite orb_true_r; reflexivity].
  replace ((w <=? 0) || (h <=? 0)) with false
    by (symmetry; apply orb_false_intro; apply Z.leb_gt; lia).
  cbn [depth].
  destruct (params_valid w h 8) eqn:Hvalid; cbn [andb negb];
    [|left; split; reflexivity].
  replace (0 <? w) with true by (symmetry; apply Z.ltb_lt; lia).
  replace (w <? (w * 8 + 7) / 8) with false
    by (symmetry; apply Z.ltb_ge; Z.div_mod_to_equations; lia).
  unfold copy, create. cbn [width height format bytes_per_line bits depth].
  replace ((w <=? 0) || (h <=? 0)) with false
    by (symmetry; apply orb_false_intro; apply Z.leb_gt; lia).
  rewrite Hvalid. cbn [negb].
  destruct (malloc_ok (aligned_bytes_per_line w 8 * h)); cbn [negb];
    [|left; split; reflexivity].
  right. unfold nbytes. cbn [width height format bytes_per_line bits].
  pose proof (QImageFacts.aligned_bytes_per_line_8 w) as Hal.
  set (bpl := aligned_bytes_per_line w 8) in *.
  assert (Hbpl : w <= bpl) by (rewrite Hal; Z.div_mod_to_equations; lia).
  destruct (Z.le_gt_cases (w * h) (Z.of_nat (List.length buffer))) as [Hlen|Hlen].
  - left. split; [reflexivity|]. split; [exact Hlen|].
    destruct (bpl * h =? w * h).
    + destruct (read_defined (map Some buffer) 0 (Z.to_nat (w * h)))
        as [m ->]; [rewrite length_map; lia|]. eauto.
    + rewrite Z.min_l by exact Hbpl.
      destruct (copy_scanlines_defined (map Some buffer) (Z.to_nat w)
                  (Z.to_nat w) (Z.to_nat (bpl - w)) (Z.to_nat h) 0)
        as [m ->]; [rewrite length_map; nia|]. eauto.
  - right. split; [reflexivity|]. split; [exact Hlen|].
    destruct (bpl * h =? w * h).
    + rewrite read_undefined; [reflexivity|]. rewrite length_map. lia.
    + rewrite Z.min_l by exact Hbpl.
      destruct (Z.to_nat h) as [|k] eqn:Hk; [lia|].
      rewrite copy_scanlines_undefined; [reflexivity|].
      rewrite length_map. nia.
Qed.

End CopyOutcome.

End CopyFacts.

Section DecoderOutcomes.

Variable tk : Dcmtk.
Variable qt : QtRuntime.

Import DicomManager.

Lemma status_normal_or_not (s : EI_Status) : s = EIS_Normal \/ s <> EIS_Normal.
Proof. destruct s; [left; reflexivity | right; discriminate]. Qed.

(** The outcome of a run on a file DCMTK accepts. *)
Lemma loadDicomImage_outcome (path : QString.t) (p : Process) :
  DicomImage_getStatus tk (opened tk qt p path) = EIS_Normal ->
  snd (loadDicomImage tk qt path p)
  = match rendered tk (opened tk qt p path) with
    | Some buffer =>
        QImage.copy (image_params_valid qt) (image_malloc_ok qt)
          (view tk qt (opened tk qt p path) buffer)
    | None => Returned QImage.null
    end.
Proof.
  intros Hstatus. rewrite (loadDicomImage_accepted tk qt path p Hstatus).
  cbv zeta. destruct (rendered tk (opened tk qt p path)); [|reflexivity].
  destruct (QImage.copy _ _ _); reflexivity.
Qed.

(** The copy of the view, by cases, in the words of the statements. *)
Lemma view_cases (image : DicomImage tk) (buffer : list byte) :
  let outcome :=
    QImage.copy (image_params_valid qt) (image_malloc_ok qt)
      (view tk qt image buffer) in
  (copy_allowed tk qt image = false /\ outcome = Returned None) \/
  (copy_allowed tk qt image = true /\
   read_width tk image * read_height tk image
     <= Z.of_nat (List.length buffer) /\
   exists d, outcome = Returned (Some d)) \/
  (copy_allowed tk qt image = true /\
   Z.of_nat (List.length buffer)
     < read_width tk image * read_height tk image /\
   outcome = Undefined).
Proof.
  apply (CopyFacts.copy_of_view_cases (image_params_valid qt)
           (image_malloc_ok qt) buffer
           (read_width tk image) (read_height tk image)).
Qed.

(** X1: decode returns an image exactly when DCMTK accepts the file,
    renders it, Qt takes the size and can allocate the copy, and the
    rendered buffer holds at least width * height bytes. *)
Theorem decode_returns_image_iff (path : QString.t) (p : Process) :
  (exists d, snd (loadDicomImage tk qt path p) = Returned (Some d)) <->
  DicomImage_getStatus tk (opened tk qt p path) = EIS_Normal /\
  exists buffer,
    rendered tk (opened tk qt p path) = Some buffer /\
    copy_allowed tk qt (opened tk qt p path) = true /\
    read_width tk (opened tk qt p path) * read_height tk (opened tk qt p path)
      <= Z.of_nat (List.length buffer).
Proof.
  destruct (status_normal_or_not
              (DicomImage_getStatus tk (opened tk qt p path))) as [Hs|Hs].
  - rewrite (loadDicomImage_outcome path p Hs).
    destruct (rendered tk (opened tk qt p path)) as [buffer|].
    + destruct (view_cases (opened tk qt p path) buffer)
        as [[Hno Ho]|[(Hyes & Hlen & d & Ho)|(Hyes & Hlen & Ho)]];
        cbv zeta in Ho; rewrite Ho; split.
      * intros [d Hd]. discriminate.
      * intros (_ & b & Hb & Hall & _). injection Hb as <-. congruence.
      * intros _. split; [exact Hs|]. exists buffer. auto.
      * intros _. eauto.
      * intros [d Hd]. discriminate.
      * intros (_ & b & Hb & _ & Hle). injection Hb as <-. lia.
    + split.
      * intros [d Hd]. discriminate.
      * intros (_ & b & Hb & _). discriminate.
  - rewrite (loadDicomImage_rejected tk qt path p Hs). cbn [snd]. split.
    + intros [d Hd]. discriminate.
    + intros [Hn _]. contradiction.
Qed.

(** X2: decode returns the null image exactly when DCMTK does not accept
    the file, or renders nothing, or Qt refuses the size read from the
    object (a width or height that is not positive as an int, a byte
    count it cannot represent) or cannot allocate the copy. *)
Theorem decode_returns_null_iff (path : QString.t) (p : Process) :
  snd (loadDicomImage tk qt path p) = Returned QImage.null <->
  DicomImage_getStatus tk (opened tk qt p path) <> EIS_Normal \/
  rendered tk (opened tk qt p path) = None \/
  copy_allowed tk qt (opened tk qt p path) = false.
Proof.
  destruct (status_normal_or_not
              (DicomImage_getStatus tk (opened tk qt p path))) as [Hs|Hs].
  - rewrite (loadDicomImage_outcome path p Hs).
    destruct (rendered tk (opened tk qt p path)) as [buffer|].
    + destruct (view_cases (opened tk qt p path) buffer)
        as [[Hno Ho]|[(Hyes & Hlen & d & Ho)|(Hyes & Hlen & Ho)]];
        cbv zeta in Ho; rewrite Ho; split; auto; try discriminate.
      * intros [H|[H|H]]; [contradiction | discriminate | congruence].
      * intros [H|[H|H]]; [contradiction | discriminate | congruence].
    + split; auto.
  - rewrite (loadDicomImage_rejected tk qt path p Hs). cbn [snd].
    split; auto.
Qed.

(** X3: decode reads past the end of the rendered buffer exactly when
    everything else succeeds and DCMTK hands over fewer than
    width * height bytes. *)
Theorem decode_undefined_iff (path : QString.t) (p : Process) :
  snd (loadDicomImage tk qt path p) = Undefined <->
  DicomImage_getStatus tk (opened tk qt p path) = EIS_Normal /\
  exists buffer,
    rendered tk (opened tk qt p path) = Some buffer /\
    copy_allowed tk qt (opened tk qt p path) = true /\
    Z.of_nat (List.length buffer)
      < read_width tk (opened tk qt p path)
        * read_height tk (opened tk qt p path).
Proof.
  destruct (status_normal_or_not
              (DicomImage_getStatus tk (opened tk qt p path))) as [Hs|Hs].
  - rewrite (loadDicomImage_outcome path p Hs).
    destruct (rendered tk (opened tk qt p path)) as [buffer|].
    + destruct (view_cases (opened tk qt p path) buffer)
        as [[Hno Ho]|[(Hyes & Hlen & d & Ho)|(Hyes & Hlen & Ho)]];
        cbv zeta in Ho; rewrite Ho; split; try discriminate.
      * intros (_ & b & Hb & Hall & _). injection Hb as <-. congruence.
      * intros (_ & b & Hb & _ & Hlt). injection Hb as <-. lia.
      * intros _. split; [exact Hs|]. exists buffer. auto.
      * reflexivity.
    + split; [discriminate|].
      intros (_ & b & Hb & _). discriminate.
  - rewrite (loadDicomImage_rejected tk qt path p Hs). cbn [snd].
    split; [discriminate|]. intros [Hn _]. contradiction.
Qed.

End DecoderOutcomes.

(** ** The image object, the calls of extractMetadata, the texts *)

Section ManagerFurther.

Variable tk : Dcmtk.
Variable qt : QtRuntime.

Import DicomManager.

(** X4: a run of decode that returns has created one image object and
    deleted it, once, as its last call into DCMTK: no path leaks the
    object or touches it after the delete. *)
Theorem image_object_is_released (path : QString.t) (p : Process)
  (v : QImage.t) :
  snd (loadDicomImage tk qt path p) = Returned v ->
  exists calls,
    added (history p) (history (fst (loadDicomImage tk qt path p)))
    = Ev_new_DicomImage (file_name qt path) :: calls ++ [Ev_delete_DicomImage]
    /\ forallb (fun e => negb (is_lifetime e)) calls = true.
Proof.
  destruct (status_normal_or_not
              (DicomImage_getStatus tk (opened tk qt p path))) as [Hs|Hs].
  - rewrite (loadDicomImage_accepted tk qt path p Hs). cbv zeta.
    set (image := opened tk qt p path).
    intros Hv.
    exists (Ev_getStatus EIS_Normal
              :: windowing_calls tk image ++ rendering_calls tk image).
    assert (Hcalls :
      forallb (fun e => negb (is_lifetime e))
        (Ev_getStatus EIS_Normal
           :: windowing_calls tk image ++ rendering_calls tk image) = true).
    { unfold windowing_calls.
      destruct (fst (DicomImage_setWindow tk image 0) =? 0); reflexivity. }
    split; [|exact Hcalls].
    destruct (rendered tk image) as [buffer|];
      [destruct (QImage.copy _ _ _); [|discriminate]|];
      cbn [fst logs history]; rewrite added_app;
      cbn [app]; rewrite <- !app_assoc; reflexivity.
  - rewrite (loadDicomImage_rejected tk qt path p Hs). intros _.
    exists [Ev_getStatus (DicomImage_getStatus tk (opened tk qt p path))].
    cbn [fst logs history]. rewrite added_app. split; reflexivity.
Qed.

(** The whole run of extractMetadata on a header that parses. *)
Lemma extractMetadata_parsed_calls (path : QString.t) (p : Process) :
  good (fst (header tk qt p path)) = true ->
  history (fst (extractMetadata tk qt path p))
  = history p
      ++ [ Ev_loadFile (file_name qt path) (fst (header tk qt p path));
           Ev_getDataset ]
      ++ map (fun tag =>
                Ev_findAndGetOFString tag
                  (fst (DcmItem_string tk (snd (header tk qt p path)) tag)))
           [DCM_PatientName; DCM_PatientID; DCM_StudyDate; DCM_Modality;
            DCM_InstitutionName]
      ++ map (fun tag =>
                Ev_findAndGetLongInt tag
                  (fst (DcmItem_long tk (snd (header tk qt p path)) tag)))
           [DCM_Columns; DCM_Rows].
Proof.
  intros Hgood. unfold extractMetadata.
  unfold loadFile, with_environment.
  erewrite bind_run by apply call_run.
  fold (file_name qt path). fold (header tk qt p path). rewrite Hgood.
  unfold getDataset. erewrite bind_run by apply call_run.
  repeat match goal with
         | |- context [bind (getTag tk ?d ?tv ?tag) ?k ?q] =>
             destruct (getTag_bind tk d tv tag k q) as [? ->]; cbn [fst snd]
         end.
  rewrite !findAndGetLongInt_bind.
  cbn [fst snd]. unfold ret, logs. cbn [fst history map].
  rewrite <- !app_assoc. reflexivity.
Qed.

Lemma extractMetadata_failed_calls (path : QString.t) (p : Process) :
  good (fst (header tk qt p path)) = false ->
  history (fst (extractMetadata tk qt path p))
  = history p
      ++ [ Ev_loadFile (file_name qt path) (fst (header tk qt p path));
           Ev_qDebug "Erro ao ler metadados do arquivo:" path ].
Proof.
  intros Hbad. unfold extractMetadata.
  unfold loadFile, with_environment.
  erewrite bind_run by apply call_run.
  fold (file_name qt path). fold (header tk qt p path). rewrite Hbad.
  unfold qDebug. erewrite bind_run by apply emit_run.
  unfold ret, logs. cbn [fst history].
  rewrite <- !app_assoc. reflexivity.
Qed.

(** X5: extractMetadata writes its line to the debug stream exactly when
    the header does not parse, and then asks the data set nothing; on a
    header that parses it makes the five string lookups and the two
    integer lookups, each once, whether or not the earlier ones
    succeeded. *)
Theorem extractMetadata_lookups_and_debug (path : QString.t) (p : Process) :
  let calls :=
    added (history p) (history (fst (extractMetadata tk qt path p))) in
  existsb is_debug calls = negb (good (fst (header tk qt p path))) /\
  (good (fst (header tk qt p path)) = false ->
   calls = [ Ev_loadFile (file_name qt path) (fst (header tk qt p path));
             Ev_qDebug "Erro ao ler metadados do arquivo:" path ]) /\
  (good (fst (header tk qt p path)) = true ->
   calls
   = [ Ev_loadFile (file_name qt path) (fst (header tk qt p path));
       Ev_getDataset ]
       ++ map (fun tag =>
                 Ev_findAndGetOFString tag
                   (fst (DcmItem_string tk (snd (header tk qt p path)) tag)))
            [DCM_PatientName; DCM_PatientID; DCM_StudyDate; DCM_Modality;
             DCM_InstitutionName]
       ++ map (fun tag =>
                 Ev_findAndGetLongInt tag
                   (fst (DcmItem_long tk (snd (header tk qt p path)) tag)))
            [DCM_Columns; DCM_Rows]).
Proof.
  cbv zeta.
  destruct (good (fst (header tk qt p path))) eqn:Hgood.
  - rewrite (extractMetadata_parsed_calls path p Hgood), added_app.
    split; [reflexivity|]. split; [discriminate | reflexivity].
  - rewrite (extractMetadata_failed_calls path p Hgood), added_app.
    split; [reflexivity|]. split; [reflexivity | discriminate].
Qed.

End ManagerFurther.

Module TextFacts.

Lemma Forall_firstn {A} (P : A -> Prop) (n : nat) (l : list A) :
  Forall P l -> Forall P (firstn n l).
Proof.
  intros H. revert n. induction H as [|x l Hx _ IH]; intros [|n]; cbn;
    constructor; auto.
Qed.

Lemma Forall_skipn {A} (P : A -> Prop) (n : nat) (l : list A) :
  Forall P l -> Forall P (skipn n l).
Proof.
  intros H. revert n. induction H as [|x l Hx Hl IH]; intros [|n]; cbn;
    auto.
Qed.

Lemma c_str_no_nul (s : list byte) : Forall (fun b => b <> x00) (c_str s).
Proof.
  induction s as [|b s IH]; cbn [c_str]; [constructor|].
  destruct (Byte.eqb b x00) eqn:E; constructor; [|exact IH].
  intros ->. discriminate.
Qed.

Lemma to_N_not_zero (b : byte) : b <> x00 -> (1 <= Byte.to_N b)%N.
Proof.
  intros Hb.
  assert (H : Byte.to_N b <> 0%N).
  { intros H0. apply Hb.
    assert (Hof : Byte.of_N (Byte.to_N b) = Some b) by apply Byte.of_to_N.
    rewrite H0 in Hof. cbn in Hof. congruence. }
  lia.
Qed.

Lemma fromLatin1_c_str (s : list byte) :
  Forall latin1_not_nul (QString.fromLatin1 (c_str s)).
Proof.
  unfold QString.fromLatin1. apply Forall_map.
  eapply Forall_impl; [|apply c_str_no_nul].
  intros b Hb. split; [apply to_N_not_zero, Hb | apply Byte.to_N_bounded].
Qed.

Lemma uint_latin1 (d : Decimal.uint) :
  Forall latin1_not_nul (QString.lit (NilEmpty.string_of_uint d)).
Proof.
  induction d; cbn; constructor; auto; unfold latin1_not_nul; lia.
Qed.

Lemma number_latin1 (a : Z) : Forall latin1_not_nul (QString.number a).
Proof.
  unfold QString.number. destruct (Z.to_int a) as [d|d]; cbn.
  - apply uint_latin1.
  - constructor; [unfold latin1_not_nul; lia | apply uint_latin1].
Qed.

Lemma stored_date_latin1 (raw : QString.t) :
  Forall latin1_not_nul raw -> Forall latin1_not_nul (stored_date raw).
Proof.
  intros H. unfold stored_date. destruct (Nat.eqb _ 8); [|exact H].
  unfold rearranged.
  assert (Hslash : Forall latin1_not_nul [slash])
    by (constructor; [unfold latin1_not_nul, slash; lia | constructor]).
  repeat (apply Forall_app; split);
    auto using Forall_firstn, Forall_skipn.
Qed.

Lemma stored_date_length (raw : QString.t) :
  QString.length (stored_date raw) <> 8%nat.
Proof.
  unfold stored_date. destruct (Nat.eqb_spec (QString.length raw) 8) as [E|E];
    [|exact E].
  unfold QString.length in *.
  do 8 (destruct raw as [|? raw]; [discriminate|]).
  destruct raw; discriminate.
Qed.

Lemma stored_date_reads_back (raw : QString.t) :
  QString.length raw = 8%nat ->
  QString.length (stored_date raw) = 10%nat /\
  date_read_back (stored_date raw) = raw.
Proof.
  intros E. unfold stored_date. rewrite E. cbn [Nat.eqb].
  unfold QString.length in E.
  do 8 (destruct raw as [|? raw]; [discriminate|]).
  destruct raw; [|discriminate]. split; reflexivity.
Qed.

End TextFacts.

Section TextsFurther.

Variable tk : Dcmtk.
Variable qt : QtRuntime.

Import DicomManager.

Lemma tag_text_latin1 (ds : DcmDataset tk) (tag : DcmTagKey) :
  Forall latin1_not_nul (tag_text tk ds tag).
Proof.
  unfold tag_text, decoded. destruct (present tk ds tag).
  - apply TextFacts.fromLatin1_c_str.
  - repeat constructor; unfold latin1_not_nul; cbn; lia.
Qed.

Lemma dimensions_text_latin1 (ds : DcmDataset tk) :
  Forall latin1_not_nul (dimensions_text tk ds).
Proof.
  unfold dimensions_text.
  repeat (apply Forall_app; split); try apply TextFacts.number_latin1;
    repeat constructor; unfold latin1_not_nul; cbn; lia.
Qed.

(** X6: every string of a record extractMetadata returns is made of
    code units 1 to 255: a text field never holds a NUL and never a
    character outside Latin-1, whatever bytes the tags hold (a value is
    cut at its first NUL, and each byte becomes one character). *)
Theorem metadata_texts_are_latin1 (path : QString.t) (p : Process)
  (data : DicomMetadata) :
  snd (extractMetadata tk qt path p) = Returned data ->
  Forall latin1_not_nul (patientName data) /\
  Forall latin1_not_nul (patientID data) /\
  Forall latin1_not_nul (studyDate data) /\
  Forall latin1_not_nul (modality data) /\
  Forall latin1_not_nul (institution data) /\
  Forall latin1_not_nul (dimensions data).
Proof.
  destruct (good (fst (header tk qt p path))) eqn:Hgood.
  - rewrite (extractMetadata_parsed tk qt path p Hgood). cbv zeta.
    intros H. injection H as <-.
    cbn [patientName patientID studyDate modality institution dimensions].
    repeat split; try apply tag_text_latin1.
    + apply TextFacts.stored_date_latin1, tag_text_latin1.
    + apply dimensions_text_latin1.
  - rewrite (extractMetadata_failed tk qt path p Hgood).
    intros H. injection H as <-. cbn. repeat split; constructor.
Qed.

(** X7: the study date of a header that parses never has eight
    characters; when the raw text (the decoded tag) has eight, the
    stored text has ten and the raw text is read back from it as
    positions [6:10], [3:5], [0:2]: the rewrite loses nothing. *)
Theorem stored_study_date_reads_back (path : QString.t) (p : Process) :
  good (fst (header tk qt p path)) = true ->
  exists data raw,
    snd (extractMetadata tk qt path p) = Returned data /\
    decoded_or_absent tk (snd (header tk qt p path)) DCM_StudyDate raw /\
    QString.length (studyDate data) <> 8%nat /\
    (QString.length raw = 8%nat ->
     QString.length (studyDate data) = 10%nat /\
     date_read_back (studyDate data) = raw).
Proof.
  intros Hgood. eexists.
  exists (tag_text tk (snd (header tk qt p path)) DCM_StudyDate).
  split; [apply (extractMetadata_parsed tk qt path p Hgood)|].
  split; [apply tag_text_decoded_or_absent|].
  cbn [studyDate].
  split; [apply TextFacts.stored_date_length
         | apply TextFacts.stored_date_reads_back].
Qed.

End TextsFurther.

(** ** The handlers of main.cpp *)

Module OverlayFacts.

Import QString Main.

Lemma no_percent_app (a b : t) :
  no_percent a -> no_percent b -> no_percent (a ++ b).
Proof. intros Ha Hb. apply Forall_app. split; assumption. Qed.

Lemma no_percent_lit_name : no_percent (lit "NOME: ").
Proof. repeat constructor; discriminate. Qed.

Lemma no_percent_lit_id : no_percent (LF ++ lit "ID: ").
Proof. repeat constructor; discriminate. Qed.

Ltac fill_markers :=
  repeat (progress
            (rewrite ?QStringFacts.min_escape_text,
               ?QStringFacts.replace_text;
             cbn [min_escape replace Nat.eqb Nat.min])).

Ltac same_text := rewrite <- ?app_assoc; rewrite ?app_nil_r; reflexivity.

Lemma tokens_top_left :
  tokens format_top_left
  = map Text (lit "NOME: ")
      ++ Marker 1 false (lit "%1")
      :: map Text (LF ++ lit "ID: ")
      ++ Marker 2 false (lit "%2")
      :: map Text (LF ++ lit "MOD: ")
      ++ [Marker 3 false (lit "%3")].
Proof. vm_compute. reflexivity. Qed.

Lemma tokens_after_name :
  tokens (LF ++ lit "ID: %2" ++ LF ++ lit "MOD: %3")
  = map Text (LF ++ lit "ID: ")
      ++ Marker 2 false (lit "%2")
      :: map Text (LF ++ lit "MOD: ")
      ++ [Marker 3 false (lit "%3")].
Proof. vm_compute. reflexivity. Qed.

Lemma tokens_after_id :
  tokens (LF ++ lit "MOD: %3")
  = map Text (LF ++ lit "MOD: ") ++ [Marker 3 false (lit "%3")].
Proof. vm_compute. reflexivity. Qed.

Lemma tokens_top_right :
  tokens format_top_right
  = Marker 1 false (lit "%1")
      :: map Text (LF ++ lit "DATA: ") ++ [Marker 2 false (lit "%2")].
Proof. vm_compute. reflexivity. Qed.

Lemma tokens_after_institution :
  tokens (LF ++ lit "DATA: %2")
  = map Text (LF ++ lit "DATA: ") ++ [Marker 2 false (lit "%2")].
Proof. vm_compute. reflexivity. Qed.

Lemma tokens_bottom_right :
  tokens format_bottom_right
  = map Text (lit "DIM: ") ++ [Marker 1 false (lit "%1")].
Proof. vm_compute. reflexivity. Qed.

(** The first [arg] of the top-left label. *)
Lemma arg_name (name : t) :
  arg_string format_top_left name
  = lit "NOME: " ++ name ++ LF ++ lit "ID: %2" ++ LF ++ lit "MOD: %3".
Proof.
  unfold arg_string, arg_text. cbv zeta. rewrite tokens_top_left.
  fill_markers. same_text.
Qed.

(** The second, on a name without [%]. *)
Lemma arg_id (name id : t) :
  no_percent name ->
  arg_string
    (lit "NOME: " ++ name ++ LF ++ lit "ID: %2" ++ LF ++ lit "MOD: %3") id
  = lit "NOME: " ++ name ++ LF ++ lit "ID: " ++ id ++ LF ++ lit "MOD: %3".
Proof.
  intros Hname. unfold arg_string, arg_text. cbv zeta.
  rewrite (app_assoc (lit "NOME: ") name).
  rewrite (QStringFacts.tokens_text _ _
             (no_percent_app _ _ no_percent_lit_name Hname)).
  rewrite tokens_after_name. fill_markers. same_text.
Qed.

(** The third, on a name and an ID without [%]. *)
Lemma arg_modality (name id modality : t) :
  no_percent name -> no_percent id ->
  arg_string
    (lit "NOME: " ++ name ++ LF ++ lit "ID: " ++ id ++ LF ++ lit "MOD: %3")
    modality
  = lit "NOME: " ++ name ++ LF ++ lit "ID: " ++ id ++ LF ++ lit "MOD: "
      ++ modality.
Proof.
  intros Hname Hid. unfold arg_string, arg_text. cbv zeta.
  replace (lit "NOME: " ++ name ++ LF ++ lit "ID: " ++ id ++ LF
             ++ lit "MOD: %3")
    with ((lit "NOME: " ++ name ++ (LF ++ lit "ID: ") ++ id)
            ++ LF ++ lit "MOD: %3")
    by (rewrite <- !app_assoc; reflexivity).
  assert (Hprefix : no_percent (lit "NOME: " ++ name ++ (LF ++ lit "ID: ") ++ id))
    by auto using no_percent_app, no_percent_lit_name, no_percent_lit_id.
  rewrite (QStringFacts.tokens_text _ _ Hprefix).
  rewrite tokens_after_id. fill_markers. same_text.
Qed.

Lemma top_left_plain (name id modality : t) :
  no_percent name -> no_percent id ->
  arg_string (arg_string (arg_string format_top_left name) id) modality
  = lit "NOME: " ++ name ++ LF ++ lit "ID: " ++ id ++ LF ++ lit "MOD: "
      ++ modality.
Proof.
  intros Hname Hid.
  rewrite arg_name, (arg_id _ _ Hname). apply arg_modality; assumption.
Qed.

Lemma top_right_plain (institution date : t) :
  no_percent institution ->
  arg_string (arg_string format_top_right institution) date
  = institution ++ LF ++ lit "DATA: " ++ date.
Proof.
  intros Hinst.
  assert (H1 : arg_string format_top_right institution
               = institution ++ LF ++ lit "DATA: %2").
  { unfold arg_string, arg_text. cbv zeta. rewrite tokens_top_right.
    fill_markers. same_text. }
  rewrite H1. unfold arg_string, arg_text. cbv zeta.
  rewrite (QStringFacts.tokens_text _ _ Hinst).
  rewrite tokens_after_institution. fill_markers. same_text.
Qed.

Lemma bottom_right_plain (dimensions : t) :
  arg_string format_bottom_right dimensions = lit "DIM: " ++ dimensions.
Proof.
  unfold arg_string, arg_text. cbv zeta. rewrite tokens_bottom_right.
  fill_markers. same_text.
Qed.


End OverlayFacts.

Section HandlerFacts.

Variable tk : Dcmtk.
Variable qt : QtRuntime.
Variable desktop : Main.Desktop.

Import DicomManager Main.

Lemma extractMetadata_returns (path : QString.t) (p : Process) :
  exists meta, snd (extractMetadata tk qt path p) = Returned meta.
Proof.
  destruct (good (fst (header tk qt p path))) eqn:Hgood.
  - rewrite (extractMetadata_parsed tk qt path p Hgood). eauto.
  - rewrite (extractMetadata_failed tk qt path p Hgood). eauto.
Qed.

Lemma extractMetadata_loads (path : QString.t) (p : Process) :
  existsb is_loadFile
    (added (history p) (history (fst (extractMetadata tk qt path p)))) = true.
Proof.
  destruct (good (fst (header tk qt p path))) eqn:Hgood.
  - rewrite (extractMetadata_parsed_calls tk qt path p Hgood), added_app.
    reflexivity.
  - rewrite (extractMetadata_failed_calls tk qt path p Hgood), added_app.
    reflexivity.
Qed.

(** A run of [openDicomAction] once the dialog was answered. *)
Lemma openDicomAction_run (answer : QString.t) (w : Window) (p : Process) :
  isEmpty answer = false ->
  openDicomAction tk qt desktop answer w p
  = match loadDicomImage tk qt answer p with
    | (p1, Returned img) =>
        match extractMetadata tk qt answer p1 with
        | (p2, Returned meta) =>
            (p2, Returned (after_open desktop answer img meta w))
        | (p2, Undefined) => (p2, Undefined)
        end
    | (p1, Undefined) => (p1, Undefined)
    end.
Proof.
  intros Hanswer. unfold openDicomAction. rewrite Hanswer. cbn [negb].
  unfold bind.
  destruct (loadDicomImage tk qt answer p) as [p1 [img|]]; [|reflexivity].
  destruct (extractMetadata tk qt answer p1) as [p2 [meta|]]; [|reflexivity].
  destruct img; reflexivity.
Qed.

Lemma openDicomAction_cancelled (w : Window) (p : Process) :
  openDicomAction tk qt desktop [] w p
  = (p, Returned
          (gui (Gui_getOpenFileName (QString.lit "Abrir DICOM")
                  (initialDir desktop)
                  (QString.lit "Arquivos DICOM (*.dcm);;Todos os Arquivos (*)")
                  []) w)).
Proof. reflexivity. Qed.

Lemma gui_added_app (w : Window) (events : list GuiEvent) (w' : Window) :
  gui_events w' = gui_events w ++ events -> gui_added w w' = events.
Proof.
  intros H. unfold gui_added. rewrite H.
  generalize (gui_events w). intros l.
  induction l as [|e l IH]; cbn; auto.
Qed.

(** X8: when the file dialog is cancelled, or decode returns the null
    image, the handler returns and the page, the three labels, the
    toggle button and the scene are what they were; the error box is
    shown exactly when a file was chosen, the wait cursor was restored
    as often as it was set, and a cancelled dialog makes no call into
    DCMTK while a chosen file has its header read even though the image
    failed. *)
Theorem unsuccessful_open_keeps_view (answer : QString.t) (w : Window)
  (p : Process) :
  isEmpty answer = true \/
  snd (loadDicomImage tk qt answer p) = Returned QImage.null ->
  exists w',
    snd (openDicomAction tk qt desktop answer w p) = Returned w' /\
    same_view w w' /\
    existsb is_critical (gui_added w w') = negb (isEmpty answer) /\
    cursor_balanced (gui_added w w') /\
    (isEmpty answer = true ->
     fst (openDicomAction tk qt desktop answer w p) = p) /\
    (isEmpty answer = false ->
     existsb is_loadFile
       (added (history (fst (loadDicomImage tk qt answer p)))
          (history (fst (openDicomAction tk qt desktop answer w p))))
     = true).
Proof.
  intros H. destruct (isEmpty answer) eqn:Hanswer.
  - destruct answer; [|discriminate]. rewrite openDicomAction_cancelled.
    eexists. split; [reflexivity|].
    split; [repeat split|].
    erewrite gui_added_app by reflexivity.
    repeat split; intros; discriminate.
  - destruct H as [H|H]; [discriminate|].
    rewrite (openDicomAction_run answer w p Hanswer).
    destruct (loadDicomImage tk qt answer p) as [p1 [img|]] eqn:Hload;
      cbn [snd] in H; [|discriminate].
    injection H as ->. cbn [fst].
    destruct (extractMetadata_returns answer p1) as [meta Hmeta].
    pose proof (extractMetadata_loads answer p1) as Hloads.
    destruct (extractMetadata tk qt answer p1) as [p2 [m|]];
      cbn [fst snd] in *; [|discriminate].
    eexists. split; [reflexivity|].
    split; [repeat split|].
    erewrite gui_added_app
      by (unfold after_open, QImage.null; cbv [gui gui_events];
          rewrite <- !app_assoc; reflexivity).
    repeat split; intros; try discriminate. exact Hloads.
Qed.

(** A run of [openDicomAction] that shows an image. *)
Lemma openDicomAction_success (answer : QString.t) (w : Window)
  (p : Process) (image : QImage.data) :
  isEmpty answer = false ->
  snd (loadDicomImage tk qt answer p) = Returned (Some image) ->
  exists meta,
    snd (extractMetadata tk qt answer p) = Returned meta /\
    snd (openDicomAction tk qt desktop answer w p)
    = Returned (after_open desktop answer (Some image) meta w).
Proof.
  intros Hanswer Hload.
  rewrite (openDicomAction_run answer w p Hanswer).
  pose proof (stateless_after (extractMetadata tk qt answer)
                (loadDicomImage tk qt answer) p
                (extractMetadata_stateless tk qt answer)
                (loadDicomImage_stateless tk qt answer)) as Hsame.
  destruct (loadDicomImage tk qt answer p) as [p1 [img|]];
    cbn [fst snd] in *; [|discriminate].
  injection Hload as ->.
  destruct (extractMetadata_returns answer p1) as [meta Hmeta].
  rewrite Hmeta in Hsame.
  destruct (extractMetadata tk qt answer p1) as [p2 [m|]];
    cbn [snd] in Hmeta; [|discriminate].
  injection Hmeta as ->.
  exists meta. split; [symmetry; exact Hsame | reflexivity].
Qed.

(** The events of a run that was not cancelled. *)
Lemma after_open_events (answer : QString.t) (img : QImage.t)
  (meta : DicomMetadata) (w : Window) :
  exists events,
    gui_events (after_open desktop answer img meta w)
    = gui_events w ++ events /\
    cursor_balanced events /\
    existsb is_critical events
    = match img with Some _ => false | None => true end.
Proof.
  unfold after_open, show_overlay.
  destruct img as [image|]; [destruct (isValid meta)|];
    cbn [gui_events setCurrentIndex set_labels gui scene_add scene_clear
           set_scene];
    rewrite <- !app_assoc; eexists; (split; [reflexivity|]);
    split; reflexivity.
Qed.

Lemma after_open_null (answer : QString.t) (meta : DicomMetadata)
  (w : Window) :
  same_view w (after_open desktop answer None meta w).
Proof. repeat split. Qed.

(** The window once an image is shown. *)
Lemma after_open_image (answer : QString.t) (image : QImage.data)
  (meta : DicomMetadata) (w : Window) :
  let w' := after_open desktop answer (Some image) meta w in
  currentIndex w' = 1 /\
  scene_items w'
  = [mk_item image (- QImage.width image, - QImage.height image)] /\
  label_text (lblTopLeft w') = fst (fst (overlay_texts meta)) /\
  label_text (lblTopRight w') = snd (fst (overlay_texts meta)) /\
  label_text (lblBottomRight w') = snd (overlay_texts meta) /\
  label_shown (lblTopLeft w') = label_shown (lblTopLeft w) /\
  label_shown (lblTopRight w') = label_shown (lblTopRight w) /\
  label_shown (lblBottomRight w') = label_shown (lblBottomRight w) /\
  btnToggleInfo_checked w' = btnToggleInfo_checked w /\
  btnToggleInfo_text w' = btnToggleInfo_text w.
Proof.
  cbv zeta. unfold after_open, show_overlay, overlay_texts.
  destruct (isValid meta); repeat split.
Qed.

(** X9: when a file was chosen and decode returns an image, the handler
    shows the viewer page with a scene that holds this image alone, its
    centre on the origin of the scene, and the overlay of the record
    extractMetadata returns for the same file: the three formatted
    texts when the record is valid, the placeholder and two empty
    labels when it is not; whether the labels are shown, and the toggle
    button, are left as they were. *)
Theorem successful_open_shows_image (answer : QString.t) (w : Window)
  (p : Process) (image : QImage.data) :
  isEmpty answer = false ->
  snd (loadDicomImage tk qt answer p) = Returned (Some image) ->
  exists w' meta,
    snd (openDicomAction tk qt desktop answer w p) = Returned w' /\
    snd (extractMetadata tk qt answer p) = Returned meta /\
    currentIndex w' = 1 /\
    scene_items w'
    = [mk_item image (- QImage.width image, - QImage.height image)] /\
    (label_text (lblTopLeft w'), label_text (lblTopRight w'),
     label_text (lblBottomRight w')) = overlay_texts meta /\
    (isValid meta = false ->
     label_text (lblTopLeft w') = unavailable /\
     label_text (lblTopRight w') = [] /\
     label_text (lblBottomRight w') = []) /\
    label_shown (lblTopLeft w') = label_shown (lblTopLeft w) /\
    label_shown (lblTopRight w') = label_shown (lblTopRight w) /\
    label_shown (lblBottomRight w') = label_shown (lblBottomRight w) /\
    btnToggleInfo_checked w' = btnToggleInfo_checked w /\
    btnToggleInfo_text w' = btnToggleInfo_text w /\
    cursor_balanced (gui_added w w').
Proof.
  intros Hanswer Hload.
  destruct (openDicomAction_success answer w p image Hanswer Hload)
    as (meta & Hmeta & Hrun).
  exists (after_open desktop answer (Some image) meta w), meta.
  split; [exact Hrun|]. split; [exact Hmeta|].
  destruct (after_open_image answer image meta w)
    as (Hi & Hs & E1 & E2 & E3 & H1 & H2 & H3 & H4 & H5).
  destruct (after_open_events answer (Some image) meta w)
    as (events & Hevents & Hbalanced & _).
  split; [exact Hi|]. split; [exact Hs|].
  split; [rewrite E1, E2, E3; destruct (overlay_texts meta) as [[? ?] ?];
          reflexivity|].
  split.
  { intros Hinvalid. rewrite E1, E2, E3. unfold overlay_texts.
    rewrite Hinvalid. repeat split. }
  do 5 (split; [assumption|]).
  rewrite (gui_added_app _ _ _ Hevents). exact Hbalanced.
Qed.

End HandlerFacts.

Section OverlayAndSession.

Variable tk : Dcmtk.
Variable qt : QtRuntime.
Variable desktop : Main.Desktop.

Import DicomManager Main.

(** X10: on a successful open with a valid record, the top-left label is
    NOME, ID and MOD followed by the patient name, the patient ID and
    the modality as they are, provided the name and the ID hold no
    percent sign; the top-right label is the institution and DATA
    followed by the study date, provided the institution holds no
    percent sign; the bottom-right label is DIM followed by the
    dimensions, always. *)
Theorem overlay_shows_fields_verbatim (answer : QString.t) (w : Window)
  (p : Process) (image : QImage.data) :
  isEmpty answer = false ->
  snd (loadDicomImage tk qt answer p) = Returned (Some image) ->
  exists w' meta,
    snd (openDicomAction tk qt desktop answer w p) = Returned w' /\
    snd (extractMetadata tk qt answer p) = Returned meta /\
    (isValid meta = true ->
     no_percent (patientName meta) -> no_percent (patientID meta) ->
     label_text (lblTopLeft w')
     = QString.lit "NOME: " ++ patientName meta ++ LF
         ++ QString.lit "ID: " ++ patientID meta ++ LF
         ++ QString.lit "MOD: " ++ modality meta) /\
    (isValid meta = true ->
     no_percent (institution meta) ->
     label_text (lblTopRight w')
     = institution meta ++ LF ++ QString.lit "DATA: " ++ studyDate meta) /\
    (isValid meta = true ->
     label_text (lblBottomRight w')
     = QString.lit "DIM: " ++ dimensions meta).
Proof.
  intros Hanswer Hload.
  destruct (openDicomAction_success tk qt desktop answer w p image
              Hanswer Hload) as (meta & Hmeta & Hrun).
  exists (after_open desktop answer (Some image) meta w), meta.
  split; [exact Hrun|]. split; [exact Hmeta|].
  destruct (after_open_image desktop answer image meta w)
    as (_ & _ & E1 & E2 & E3 & _).
  rewrite E1, E2, E3. unfold overlay_texts.
  repeat split; intros Hvalid; rewrite Hvalid; cbn [fst snd].
  - intros Hname Hid. apply OverlayFacts.top_left_plain; assumption.
  - intros Hinst. apply OverlayFacts.top_right_plain; assumption.
  - apply OverlayFacts.bottom_right_plain.
Qed.


(** X12: when the labels follow the toggle button, one toggle (a click
    or Ctrl+I) flips the button and the three labels together and
    sets the matching button text, and a second toggle gives back the
    window as it was. *)
Theorem toggle_twice_restores (w : Window) :
  overlay_follows_toggle w ->
  btnToggleInfo_checked (toggle w) = negb (btnToggleInfo_checked w) /\
  overlay_follows_toggle (toggle w) /\
  toggle (toggle w) = w.
Proof.
  intros (H1 & H2 & H3 & H4).
  destruct w as [i [t1 s1] [t2 s2] [t3 s3] c t items events].
  cbn in H1, H2, H3, H4. subst s1 s2 s3 t.
  destruct c; repeat split.
Qed.

(** *** What a session keeps *)

Lemma cursor_balanced_app (l l' : list GuiEvent) :
  cursor_balanced l -> cursor_balanced l' -> cursor_balanced (l ++ l').
Proof.
  unfold cursor_balanced. intros H H'.
  rewrite !filter_app, !length_app. congruence.
Qed.

Lemma cursor_balanced_gui (e : GuiEvent) (w : Window) :
  cursor_balanced [e] -> cursor_balanced (gui_events w) ->
  cursor_balanced (gui_events (gui e w)).
Proof. intros He Hw. cbn [gui gui_events]. apply cursor_balanced_app; auto. Qed.

Lemma toggle_kept (w : Window) : kept w -> kept (toggle w).
Proof.
  intros (Hpage & Htoggle & Hcursor). split; [|split].
  - destruct w; destruct btnToggleInfo_checked0; exact Hpage.
  - destruct Htoggle as (H1 & H2 & H3 & H4).
    destruct w as [i [t1 s1] [t2 s2] [t3 s3] c t items events].
    destruct c; repeat split.
  - destruct w; destruct btnToggleInfo_checked0; exact Hcursor.
Qed.

Lemma after_open_kept (answer : QString.t) (img : QImage.t)
  (meta : DicomMetadata) (w : Window) :
  kept w -> kept (after_open desktop answer img meta w).
Proof.
  intros (Hpage & Htoggle & Hcursor).
  destruct (after_open_events desktop answer img meta w)
    as (events & Hevents & Hbalanced & _).
  split; [|split].
  - destruct img as [image|].
    + destruct (after_open_image desktop answer image meta w)
        as (Hi & Hs & _).
      right. split; [exact Hi|]. eexists. exact Hs.
    + exact Hpage.
  - destruct img as [image|]; [|exact Htoggle].
    destruct (after_open_image desktop answer image meta w)
      as (_ & _ & _ & _ & _ & H1 & H2 & H3 & H4 & H5).
    destruct Htoggle as (G1 & G2 & G3 & G4).
    unfold overlay_follows_toggle. rewrite H1, H2, H3, H4, H5. auto.
  - rewrite Hevents. apply cursor_balanced_app; assumption.
Qed.

Lemma handle_kept (a : Action) (w w' : Window) (q : Process) :
  kept w -> snd (handle tk qt desktop a w q) = Returned w' -> kept w'.
Proof.
  intros Hkept. pose proof Hkept as (Hpage & Htoggle & Hcursor).
  destruct a; cbn [handle ret snd]; try (intros H; injection H as <-);
    try (apply toggle_kept; exact Hkept);
    try (split; [exact Hpage|]; split; [exact Htoggle|];
         repeat apply cursor_balanced_gui; (reflexivity || exact Hcursor)).
  - destruct (isEmpty answer) eqn:Hanswer.
    + destruct answer; [|discriminate].
      rewrite openDicomAction_cancelled. cbn [snd].
      intros H. injection H as <-.
      split; [exact Hpage|]. split; [exact Htoggle|].
      apply cursor_balanced_gui; [reflexivity | exact Hcursor].
    + rewrite (openDicomAction_run tk qt desktop answer w q Hanswer).
      destruct (loadDicomImage tk qt answer q) as [p1 [img|]];
        [|discriminate].
      destruct (extractMetadata tk qt answer p1) as [p2 [meta|]];
        [|discriminate].
      cbn [snd]. intros H. injection H as <-.
      apply after_open_kept, Hkept.
  - split; [left; split; reflexivity|]. split; [exact Htoggle|exact Hcursor].
Qed.

Lemma session_kept (actions : list Action) (w w' : Window) (q : Process) :
  kept w ->
  snd (session tk qt desktop actions w q) = Returned w' -> kept w'.
Proof.
  revert w q. induction actions as [|a actions IH]; intros w q Hkept.
  - cbn. intros H. injection H as <-. exact Hkept.
  - cbn [session]. unfold bind.
    destruct (handle tk qt desktop a w q) as [q1 [w1|]] eqn:Hstep;
      [|discriminate].
    apply IH. apply (handle_kept a w w1 q Hkept). rewrite Hstep. reflexivity.
Qed.

Lemma initial_window_kept : kept initial_window.
Proof.
  split; [left; split; reflexivity|]. split; [repeat split | reflexivity].
Qed.

(** X13: whatever the user does (open, cancel, zoom, fit, toggle, back,
    the shortcuts), after every handler that returns the viewer page is
    shown exactly when the scene holds one image and the welcome page
    exactly when it is empty, the three overlay labels are shown or
    hidden together with the toggle button whose text says so, and
    every wait cursor set was restored. *)
Theorem session_keeps_window_consistent (actions : list Action)
  (p : Process) (w' : Window) :
  snd (session tk qt desktop actions initial_window p) = Returned w' ->
  page_matches_scene w' /\ overlay_follows_toggle w' /\
  cursor_balanced (gui_events w').
Proof. apply session_kept, initial_window_kept. Qed.

End OverlayAndSession.

Section SessionAndFiles.

Variable tk : Dcmtk.
Variable qt : QtRuntime.
Variable desktop : Main.Desktop.

Import DicomManager Main.

Lemma openDicomAction_stateless (answer : QString.t) (w : Window) :
  stateless (openDicomAction tk qt desktop answer w).
Proof.
  unfold openDicomAction.
  destruct (negb (isEmpty answer)); [|apply stateless_ret].
  apply stateless_bind; [apply loadDicomImage_stateless|intros img].
  apply stateless_bind; [apply extractMetadata_stateless|intros meta].
  destruct img; apply stateless_ret.
Qed.

Lemma handle_stateless (a : Action) (w : Window) :
  stateless (handle tk qt desktop a w).
Proof.
  destruct a; cbn [handle];
    first [apply openDicomAction_stateless | apply stateless_ret].
Qed.

Lemma session_stateless (actions : list Action) (w : Window) :
  stateless (session tk qt desktop actions w).
Proof.
  revert w. induction actions as [|a actions IH]; intros w; cbn [session].
  - apply stateless_ret.
  - apply stateless_bind; [apply handle_stateless | intros w'; apply IH].
Qed.

Lemma same_view_matches (p : Process) (w w' : Window) :
  same_view w w' ->
  overlay_matches_image tk qt p w -> overlay_matches_image tk qt p w'.
Proof.
  intros (_ & H1 & H2 & H3 & _ & _ & Hs) H item Hitem.
  rewrite Hs in Hitem. rewrite H1, H2, H3. apply H, Hitem.
Qed.

Lemma toggle_matches (p : Process) (w : Window) :
  overlay_matches_image tk qt p w ->
  overlay_matches_image tk qt p (toggle w).
Proof.
  intros H item Hitem.
  destruct w as [i [t1 s1] [t2 s2] [t3 s3] c t items events].
  destruct c; apply (H item Hitem).
Qed.

Lemma handle_matches (a : Action) (w w' : Window) (p q : Process) :
  same_environment q p ->
  overlay_matches_image tk qt p w ->
  snd (handle tk qt desktop a w q) = Returned w' ->
  overlay_matches_image tk qt p w'.
Proof.
  intros Hqp Hw.
  destruct a; cbn [handle ret snd]; try (intros H; injection H as <-);
    try (apply toggle_matches, Hw);
    try solve [apply (same_view_matches p w);
               [repeat split; reflexivity | exact Hw]].
  - destruct (isEmpty answer) eqn:Hanswer.
    + destruct answer; [|discriminate].
      rewrite openDicomAction_cancelled. cbn [snd].
      intros H. injection H as <-.
      apply (same_view_matches p w); [repeat split | exact Hw].
    + rewrite (openDicomAction_run tk qt desktop answer w q Hanswer).
      pose proof (loadDicomImage_stateless tk qt answer q p Hqp)
        as [Hq1 Hload].
      destruct (loadDicomImage tk qt answer q) as [q1 [img|]];
        [|discriminate].
      cbn [fst snd] in Hq1, Hload.
      assert (Hq1p : same_environment q1 p)
        by (eapply same_environment_trans; eassumption).
      pose proof (extractMetadata_stateless tk qt answer q1 p Hq1p)
        as [_ Hmeta].
      destruct (extractMetadata tk qt answer q1) as [q2 [meta|]];
        [|discriminate].
      cbn [snd] in Hmeta |- *. intros H. injection H as <-.
      destruct img as [image|].
      * destruct (after_open_image desktop answer image meta w)
          as (_ & Hs & E1 & E2 & E3 & _).
        intros item Hitem. rewrite Hs in Hitem.
        destruct Hitem as [<-|[]]. cbn [item_pixmap].
        exists answer, meta.
        split; [symmetry; exact Hload|]. split; [symmetry; exact Hmeta|].
        rewrite E1, E2, E3. destruct (overlay_texts meta) as [[? ?] ?].
        reflexivity.
      * apply (same_view_matches p w);
          [apply after_open_null | exact Hw].
  - intros item [].
Qed.

Lemma session_matches (actions : list Action) (w w' : Window)
  (p q : Process) :
  same_environment q p ->
  overlay_matches_image tk qt p w ->
  snd (session tk qt desktop actions w q) = Returned w' ->
  overlay_matches_image tk qt p w'.
Proof.
  revert w q. induction actions as [|a actions IH]; intros w q Hqp Hw.
  - cbn. intros H. injection H as <-. exact Hw.
  - cbn [session]. unfold bind.
    pose proof (handle_stateless a w q q (same_environment_refl q))
      as [Henv _].
    destruct (handle tk qt desktop a w q) as [q1 [w1|]] eqn:Hstep;
      [|discriminate].
    cbn [fst] in Henv.
    apply IH.
    + eapply same_environment_trans; eassumption.
    + apply (handle_matches a w w1 p q Hqp Hw). rewrite Hstep. reflexivity.
Qed.

(** X14: whatever the user does, the image in the scene and the texts of
    the three labels come from one file: there is a path for which
    decode returns the image on display and extractMetadata the record
    whose overlay the labels hold.  A failed or cancelled open, a
    toggle or a zoom never leaves the overlay of one file over the
    image of another. *)
Theorem overlay_always_matches_image (actions : list Action)
  (p : Process) (w' : Window) :
  snd (session tk qt desktop actions initial_window p) = Returned w' ->
  overlay_matches_image tk qt p w'.
Proof.
  apply session_matches; [apply same_environment_refl|].
  intros item [].
Qed.

(** *** main *)

Lemma registered_after (c : Codec) (l : list Codec) :
  existsb (Codec_eqb c)
    (if existsb (Codec_eqb c) l then l else l ++ [c]) = true.
Proof.
  destruct (existsb (Codec_eqb c) l) eqn:E; [exact E|].
  rewrite existsb_app. cbn. destruct c; cbn; apply orb_true_r.
Qed.

Lemma registered_stays (c c' : Codec) (l : list Codec) :
  existsb (Codec_eqb c) l = true ->
  existsb (Codec_eqb c)
    (if existsb (Codec_eqb c') l then l else l ++ [c']) = true.
Proof.
  intros H. destruct (existsb (Codec_eqb c') l); [exact H|].
  rewrite existsb_app, H. reflexivity.
Qed.

Lemma cleaned_after (c : Codec) (l : list Codec) :
  existsb (Codec_eqb c) (filter (fun c' => negb (Codec_eqb c c')) l) = false.
Proof.
  induction l as [|x l IH]; cbn; [reflexivity|].
  destruct (Codec_eqb c x) eqn:E; cbn; [exact IH|]. rewrite E. exact IH.
Qed.

Lemma cleaned_stays (c c' : Codec) (l : list Codec) :
  existsb (Codec_eqb c) l = false ->
  existsb (Codec_eqb c) (filter (fun x => negb (Codec_eqb c' x)) l) = false.
Proof.
  induction l as [|x l IH]; cbn; [reflexivity|].
  intros H. apply orb_false_elim in H as [Hx Hl].
  destruct (Codec_eqb c' x); cbn; [auto|]. rewrite Hx. auto.
Qed.

(** X15: main registers the three decoders before the event loop and no
    handler changes the registry or the files, so every decode of the
    session runs with JPEG, JPEG-LS and RLE registered; when the loop
    ends, main returns what exec returned, none of the three decoders
    is left registered and the files are what they were. *)
Theorem main_brackets_the_session (actions : list Action) (p : Process)
  (r : Z) :
  snd (main tk qt desktop actions p) = Returned r ->
  r = exec_result desktop /\
  files (fst (main tk qt desktop actions p)) = files p /\
  (forall c,
     existsb (Codec_eqb c) (codecs (fst (main tk qt desktop actions p)))
     = false) /\
  exists q w,
    files q = files p /\ history q = history p /\
    (forall c, existsb (Codec_eqb c) (codecs q) = true) /\
    snd (session tk qt desktop actions initial_window q) = Returned w /\
    same_environment
      (fst (session tk qt desktop actions initial_window q)) q.
Proof.
  unfold main, bind, registerCodecs, cleanup, ret.
  cbn [files codecs history].
  set (q := mk_process (files p) _ (history p)).
  pose proof (session_stateless actions initial_window q q
                (same_environment_refl q)) as [Henv _].
  destruct (session tk qt desktop actions initial_window q)
    as [q' [w|]] eqn:Hsession; [|discriminate].
  cbn [fst snd] in Henv |- *. intros H. injection H as <-.
  destruct Henv as [Hfiles Hcodecs].
  split; [reflexivity|]. split; [rewrite Hfiles; reflexivity|].
  split.
  - intros c. destruct c.
    + do 2 apply cleaned_stays. apply cleaned_after.
    + apply cleaned_stays, cleaned_after.
    + apply cleaned_after.
  - exists q, w. rewrite Hsession. cbn [fst snd].
    split; [reflexivity|]. split; [reflexivity|].
    split; [|split; [reflexivity | split; assumption]].
    intros c. subst q. cbn [codecs]. destruct c.
    + do 2 apply registered_stays. apply registered_after.
    + apply registered_stays, registered_after.
    + apply registered_after.
Qed.

End SessionAndFiles.

(** ** The further properties at work on the test double *)

Section FurtherWitnesses.

Import DicomManager Main.

Lemma decode_returns_image_iff_witness :
  exists d,
    snd (loadDicomImage Mock.tk Mock.qt Mock.ct_path Mock.process)
    = Returned (Some d).
Proof.
  apply (decode_returns_image_iff Mock.tk Mock.qt Mock.ct_path Mock.process).
  split; [reflexivity|].
  exists [x0a; x14; x1e; x28; x32; x3c].
  split; [reflexivity|]. split; [reflexivity|]. vm_compute. discriminate.
Defined.

Lemma decode_returns_null_iff_witness :
  copy_allowed Bench.tk Mock.qt
    (opened Bench.tk Mock.qt Bench.process Bench.flat_path) = false /\
  snd (loadDicomImage Bench.tk Mock.qt Bench.flat_path Bench.process)
  = Returned QImage.null.
Proof.
  split; [reflexivity|].
  apply (decode_returns_null_iff Bench.tk Mock.qt Bench.flat_path
           Bench.process).
  right. right. reflexivity.
Defined.

Lemma decode_undefined_iff_witness :
  snd (loadDicomImage Bench.tk Mock.qt Bench.short_path Bench.process)
  = Undefined.
Proof.
  apply (decode_undefined_iff Bench.tk Mock.qt Bench.short_path
           Bench.process).
  split; [reflexivity|].
  exists [x01; x02; x03].
  split; [reflexivity|]. split; [reflexivity|]. vm_compute. reflexivity.
Defined.

Lemma image_object_is_released_witness :
  snd (loadDicomImage Mock.tk Mock.qt Mock.ct_path Mock.process)
  = Returned (Some Mock.ct_image) /\
  exists calls,
    added (history Mock.process)
      (history (fst (loadDicomImage Mock.tk Mock.qt Mock.ct_path
                       Mock.process)))
    = Ev_new_DicomImage (file_name Mock.qt Mock.ct_path)
        :: calls ++ [Ev_delete_DicomImage].
Proof.
  split; [reflexivity|].
  destruct (image_object_is_released Mock.tk Mock.qt Mock.ct_path
              Mock.process (Some Mock.ct_image) eq_refl)
    as (calls & Hcalls & _).
  exists calls. exact Hcalls.
Defined.

Lemma extractMetadata_lookups_and_debug_witness :
  good (fst (header Mock.tk Mock.qt Mock.process Mock.notes_path)) = false /\
  added (history Mock.process)
    (history (fst (extractMetadata Mock.tk Mock.qt Mock.notes_path
                     Mock.process)))
  = [ Ev_loadFile (file_name Mock.qt Mock.notes_path)
        (fst (header Mock.tk Mock.qt Mock.process Mock.notes_path));
      Ev_qDebug "Erro ao ler metadados do arquivo:" Mock.notes_path ].
Proof.
  split; [reflexivity|].
  destruct (extractMetadata_lookups_and_debug Mock.tk Mock.qt
              Mock.notes_path Mock.process) as (_ & Hfailed & _).
  apply Hfailed. reflexivity.
Defined.

Lemma metadata_texts_are_latin1_witness :
  exists data,
    snd (extractMetadata Mock.tk Mock.qt Mock.ct_path Mock.process)
    = Returned data /\
    Forall latin1_not_nul (patientName data).
Proof.
  assert (H : exists data,
             snd (extractMetadata Mock.tk Mock.qt Mock.ct_path Mock.process)
             = Returned data)
    by (vm_compute; eexists; reflexivity).
  destruct H as [data Hdata]. exists data. split; [exact Hdata|].
  apply (metadata_texts_are_latin1 Mock.tk Mock.qt Mock.ct_path
           Mock.process data Hdata).
Defined.

Lemma stored_study_date_reads_back_witness :
  good (fst (header Mock.tk Mock.qt Mock.process Mock.ct_path)) = true /\
  exists data,
    snd (extractMetadata Mock.tk Mock.qt Mock.ct_path Mock.process)
    = Returned data /\
    QString.length (studyDate data) <> 8%nat.
Proof.
  split; [reflexivity|].
  destruct (stored_study_date_reads_back Mock.tk Mock.qt Mock.ct_path
              Mock.process eq_refl) as (data & raw & Hrun & _ & Hlen & _).
  exists data. split; [exact Hrun | exact Hlen].
Defined.

Lemma unsuccessful_open_keeps_view_witness :
  snd (loadDicomImage Mock.tk Mock.qt Mock.notes_path Mock.process)
  = Returned QImage.null /\
  exists w',
    snd (openDicomAction Mock.tk Mock.qt Bench.desktop Mock.notes_path
           initial_window Mock.process) = Returned w' /\
    same_view initial_window w'.
Proof.
  split; [reflexivity|].
  destruct (unsuccessful_open_keeps_view Mock.tk Mock.qt Bench.desktop
              Mock.notes_path initial_window Mock.process
              (or_intror eq_refl)) as (w' & Hrun & Hview & _).
  exists w'. split; [exact Hrun | exact Hview].
Defined.

Lemma successful_open_shows_image_witness :
  isEmpty Mock.ct_path = false /\
  snd (loadDicomImage Mock.tk Mock.qt Mock.ct_path Mock.process)
  = Returned (Some Mock.ct_image) /\
  exists w',
    snd (openDicomAction Mock.tk Mock.qt Bench.desktop Mock.ct_path
           initial_window Mock.process) = Returned w' /\
    currentIndex w' = 1 /\
    scene_items w' = [mk_item Mock.ct_image (-3, -2)].
Proof.
  split; [reflexivity|]. split; [reflexivity|].
  destruct (successful_open_shows_image Mock.tk Mock.qt Bench.desktop
              Mock.ct_path initial_window Mock.process Mock.ct_image
              eq_refl eq_refl) as (w' & meta & Hrun & _ & Hi & Hs & _).
  exists w'. split; [exact Hrun|]. split; [exact Hi | exact Hs].
Defined.

Lemma overlay_shows_fields_verbatim_witness :
  isEmpty Mock.ct_path = false /\
  snd (loadDicomImage Mock.tk Mock.qt Mock.ct_path Mock.process)
  = Returned (Some Mock.ct_image) /\
  exists w',
    snd (openDicomAction Mock.tk Mock.qt Bench.desktop Mock.ct_path
           initial_window Mock.process) = Returned w' /\
    label_text (lblTopLeft w')
    = QString.lit "NOME: DOE^JOHN" ++ LF ++ QString.lit "ID: 12345" ++ LF
        ++ QString.lit "MOD: CT".
Proof.
  split; [reflexivity|]. split; [reflexivity|].
  destruct (overlay_shows_fields_verbatim Mock.tk Mock.qt Bench.desktop
              Mock.ct_path initial_window Mock.process Mock.ct_image
              eq_refl eq_refl) as (w' & meta & Hrun & Hmeta & Htop & _).
  exists w'. split; [exact Hrun|].
  vm_compute in Hmeta. injection Hmeta as <-.
  rewrite Htop; [reflexivity | reflexivity | |];
    repeat constructor; discriminate.
Defined.


Lemma toggle_twice_restores_witness :
  overlay_follows_toggle initial_window /\
  toggle (toggle initial_window) = initial_window.
Proof.
  assert (H : overlay_follows_toggle initial_window) by (repeat split).
  split; [exact H|].
  apply (toggle_twice_restores initial_window H).
Defined.

Lemma session_keeps_window_consistent_witness :
  exists w',
    snd (session Mock.tk Mock.qt Bench.desktop Bench.visit initial_window
           Mock.process) = Returned w' /\
    page_matches_scene w'.
Proof.
  assert (H : exists w',
             snd (session Mock.tk Mock.qt Bench.desktop Bench.visit
                    initial_window Mock.process) = Returned w')
    by (vm_compute; eexists; reflexivity).
  destruct H as [w' Hrun]. exists w'. split; [exact Hrun|].
  apply (session_keeps_window_consistent Mock.tk Mock.qt Bench.desktop
           Bench.visit Mock.process w' Hrun).
Defined.

Lemma overlay_always_matches_image_witness :
  exists w',
    snd (session Mock.tk Mock.qt Bench.desktop
           [Open Mock.ct_path; Open Mock.notes_path; ToggleInfo]
           initial_window Mock.process) = Returned w' /\
    overlay_matches_image Mock.tk Mock.qt Mock.process w'.
Proof.
  assert (H : exists w',
             snd (session Mock.tk Mock.qt Bench.desktop
                    [Open Mock.ct_path; Open Mock.notes_path; ToggleInfo]
                    initial_window Mock.process) = Returned w')
    by (vm_compute; eexists; reflexivity).
  destruct H as [w' Hrun]. exists w'. split; [exact Hrun|].
  apply (overlay_always_matches_image Mock.tk Mock.qt Bench.desktop
           _ Mock.process w' Hrun).
Defined.

Lemma main_brackets_the_session_witness :
  snd (main Mock.tk Mock.qt Bench.desktop Bench.visit
         (mk_process Mock.disk [] [])) = Returned 0 /\
  codecs (fst (main Mock.tk Mock.qt Bench.desktop Bench.visit
                 (mk_process Mock.disk [] []))) = [].
Proof.
  assert (H : snd (main Mock.tk Mock.qt Bench.desktop Bench.visit
                     (mk_process Mock.disk [] [])) = Returned 0)
    by (vm_compute; reflexivity).
  split; [exact H|].
  destruct (main_brackets_the_session Mock.tk Mock.qt Bench.desktop
              Bench.visit (mk_process Mock.disk [] []) 0 H)
    as (_ & _ & Hnone & _).
  destruct (codecs (fst (main Mock.tk Mock.qt Bench.desktop Bench.visit
                           (mk_process Mock.disk [] [])))) as [|c l];
    [reflexivity|].
  specialize (Hnone c). cbn in Hnone. destruct c; discriminate.
Defined.

End FurtherWitnesses.
